(** * MultiAgentActionPlanner: the Research -> Plan -> Assets pipeline

    A shallow embedding of [schemas.py], [researcher_groq.py],
    [planner_groq.py], [producer_groq.py] and of [app.py] (the stage
    handlers, Reset, the plan edit form and Deliver), with the properties of
    the pipeline proved over it.

    Conventions of the embedding.
    - A pydantic document is a record.  A [Dict[str, str]] that is only read
      by key (one risk item) is a [gmap string string]; the risks mapping,
      whose iteration order is observable, is an association list.
    - The hosted model behind [with_structured_output] is an oracle: it is
      asked with the number of outbound calls made so far and the payload,
      and answers with a structured reply, a reply that does not fit the
      schema, or a transport fault.
    - A stage is a computation over a [World] that records which stages were
      entered, which outbound calls were made and what the page displayed;
      a Python exception is the [Raise] outcome.  A stage call returns a
      document or raises: a chain that gives back [None] for a reply with
      no tool call is outside the model, and a statement about a call that
      returns is about a call that returns a document.
    - [st.session_state] is the record [Session].  A pydantic model has
      neither [__bool__] nor [__len__], so [if doc:] on an optional
      document tests that it is not [None].
    - A press of a button is one run of the script with that button set;
      a visit is a list of presses.  What a text input holds is a function
      of its label, default value and key.
    - Deliver runs over a [Desk] that records the sessions opened with the
      mail server and the messages displayed.  The environment and the
      secrets are maps from names to text; [int], the header checks of
      [EmailMessage], the mail server and the whitespace class of [re] are
      parameters.  [re] works on the code points of a [str], read back from
      the UTF-8 text that holds it. *)

From Stdlib Require Import Ascii.
From stdpp Require Import base numbers strings pretty list gmap.

Open Scope string_scope.
Open Scope Z_scope.
Open Scope list_scope.

(** ** schemas.py *)

Record TaskItem := mkTaskItem {
  desc : string;
  owner : string;
  effort_hrs : Z
}.

Record Milestone := mkMilestone {
  title : string;
  due : string;
  tasks : list TaskItem
}.

(** [Union[List[Dict[str, str]], Dict[str, str]]] *)
Inductive Risks :=
  | RisksList (items : list (gmap string string))
  | RisksDict (kvs : list (string * string)).

Record PlanOut := mkPlanOut {
  milestones : list Milestone;
  success_metrics : list string;
  plan_risks : Risks
}.

Record Target := mkTarget { name : string; why : string }.

Record Reference := mkReference { ref_title : string; url : string }.

Record ResearchOut := mkResearchOut {
  targets : list Target;
  insights : list string;
  research_risks : Risks;
  references : list Reference
}.

Record AssetsOut := mkAssetsOut {
  launch_email : string;
  social_posts : list string;
  script_outline : string;
  weekly_checklist : string
}.

(** *** Validation of a structured reply against [PlanOut]

    The reply of the model is structured data that has not been validated
    yet: the same shape as [PlanOut], with [owner] possibly absent
    ([Field("You")]) and [effort_hrs] any integer. *)

Record RawTask := mkRawTask {
  raw_desc : string;
  raw_owner : option string;
  raw_effort_hrs : Z
}.

Record RawMilestone := mkRawMilestone {
  raw_title : string;
  raw_due : string;
  raw_tasks : list RawTask
}.

Record RawPlan := mkRawPlan {
  raw_milestones : list RawMilestone;
  raw_success_metrics : list string;
  raw_risks : Risks
}.

(** One entry of a pydantic [ValidationError]: where, and which bound. *)
Inductive LocItem := Key (k : string) | Idx (i : nat).

Record ErrorDetail := mkErrorDetail {
  loc : list LocItem;
  err_type : string
}.

Inductive Validated (A : Type) :=
  | Valid (a : A)
  | Invalid (errs : list ErrorDetail).
Arguments Valid {A} a.
Arguments Invalid {A} errs.

Definition under (p : list LocItem) (e : ErrorDetail) : ErrorDetail :=
  {| loc := p ++ loc e; err_type := err_type e |}.

(** [effort_hrs: int = Field(..., ge=1, le=12)] *)
Definition check_effort_hrs (e : Z) : list ErrorDetail :=
  if e <? 1 then [ {| loc := [Key "effort_hrs"]; err_type := "greater_than_equal" |} ]
  else if 12 <? e then [ {| loc := [Key "effort_hrs"]; err_type := "less_than_equal" |} ]
  else [].

Definition validate_TaskItem (t : RawTask) : Validated TaskItem :=
  match check_effort_hrs (raw_effort_hrs t) with
  | [] => Valid {| desc := raw_desc t;
                   owner := default "You" (raw_owner t);
                   effort_hrs := raw_effort_hrs t |}
  | errs => Invalid errs
  end.

(** A [List[X]] field: every element is validated, the errors of all of them
    are reported under the element's index.  No length is checked. *)
Fixpoint validate_list {R A : Type} (v : R -> Validated A) (i : nat) (l : list R)
  : Validated (list A) :=
  match l with
  | [] => Valid []
  | x :: l' =>
      match v x, validate_list v (S i) l' with
      | Valid a, Valid r => Valid (a :: r)
      | Valid _, Invalid es => Invalid es
      | Invalid e, Valid _ => Invalid (under [Idx i] <$> e)
      | Invalid e, Invalid es => Invalid ((under [Idx i] <$> e) ++ es)
      end
  end.

Definition validate_Milestone (m : RawMilestone) : Validated Milestone :=
  match validate_list validate_TaskItem 0%nat (raw_tasks m) with
  | Valid ts => Valid {| title := raw_title m; due := raw_due m; tasks := ts |}
  | Invalid errs => Invalid (under [Key "tasks"] <$> errs)
  end.

Definition validate_PlanOut (p : RawPlan) : Validated PlanOut :=
  match validate_list validate_Milestone 0%nat (raw_milestones p) with
  | Valid ms => Valid {| milestones := ms;
                         success_metrics := raw_success_metrics p;
                         plan_risks := raw_risks p |}
  | Invalid errs => Invalid (under [Key "milestones"] <$> errs)
  end.

(** ** Exceptions, outcomes and the state-and-exception monad *)

Inductive Exn :=
  | ValidationError (errs : list ErrorDetail)
  | KeyError (k : string)
  | TransportError (msg : string).

Inductive Outcome (A : Type) :=
  | Ok (a : A)
  | Raise (e : Exn).
Arguments Ok {A} a.
Arguments Raise {A} e.

#[global] Instance Outcome_ret : MRet Outcome := fun A a => Ok a.

#[global] Instance Outcome_bind : MBind Outcome := fun A B k o =>
  match o with
  | Ok a => k a
  | Raise e => Raise e
  end.

Definition M (S A : Type) : Type := S -> Outcome A * S.

#[global] Instance M_ret {S} : MRet (M S) := fun A a s => (Ok a, s).

#[global] Instance M_bind {S} : MBind (M S) := fun A B k m s =>
  match m s with
  | (Ok a, s') => k a s'
  | (Raise e, s') => (Raise e, s')
  end.

Definition raise {S A} (e : Exn) : M S A := fun s => (Raise e, s).

(** A computation that does not touch the state. *)
Definition outcome {S A} (o : Outcome A) : M S A := fun s => (o, s).

Definition modify {S} (f : S -> S) : M S unit := fun s => (Ok (), f s).

Definition gets {S A} (f : S -> A) : M S A := fun s => (Ok (f s), s).

(** [try: body  except Exception as e: handler e] *)
Definition try_except {S A} (body : M S A) (handler : Exn -> M S A) : M S A :=
  fun s =>
    match body s with
    | (Ok a, s') => (Ok a, s')
    | (Raise e, s') => handler e s'
    end.

(** [try: body  except ValidationError: handler]: any other exception
    passes through. *)
Definition try_except_ValidationError {S A} (body handler : M S A) : M S A :=
  try_except body (fun e =>
    match e with
    | ValidationError _ => handler
    | _ => raise e
    end).

Definition is_raise {A S} (r : Outcome A * S) : bool :=
  match r.1 with Raise _ => true | Ok _ => false end.

(** ** The generation service and the observable world *)

Inductive Stage := Research | Plan | Assets.

#[global] Instance Stage_eq_dec : EqDecision Stage.
Proof. solve_decision. Defined.

(** What a [prompt | llm.with_structured_output(X)] chain gets back from the
    hosted model for one request. *)
Inductive Reply (R : Type) :=
  | Structured (r : R)
  | Unstructured (errs : list ErrorDetail)
  | Fault (msg : string).
Arguments Structured {R} r.
Arguments Unstructured {R} errs.
Arguments Fault {R} msg.

(** [research_client] is what building the client inside [make_research]
    does, [ChatGroq(model=os.getenv("GROQ_MODEL"), temperature=0)]: it
    returns, or it raises (no model named in the environment, no key).  The
    planner and the producer build their client when the module is loaded. *)
Record Service := mkService {
  research_client : nat -> Outcome unit;
  research_llm : nat -> gmap string string -> Reply ResearchOut;
  planner_llm : nat -> gmap string string -> Reply RawPlan;
  producer_llm : nat -> gmap string string -> Reply AssetsOut
}.

Inductive UiMsg :=
  | success (msg : string)
  | error (msg : string)
  | warning (msg : string)
  | caption (e : Exn).

Record World := mkWorld {
  entered : list Stage;
  calls : list (Stage * gmap string string);
  shown : list UiMsg
}.

Definition add_entered (st : Stage) (w : World) : World :=
  {| entered := entered w ++ [st]; calls := calls w; shown := shown w |}.

Definition add_call (st : Stage) (payload : gmap string string) (w : World) : World :=
  {| entered := entered w; calls := calls w ++ [(st, payload)]; shown := shown w |}.

Definition add_shown (u : UiMsg) (w : World) : World :=
  {| entered := entered w; calls := calls w; shown := shown w ++ [u] |}.

Definition enter (st : Stage) : M World unit := modify (add_entered st).

Definition log_call (st : Stage) (payload : gmap string string) : M World unit :=
  modify (add_call st payload).

(** What [chain.invoke] makes of a reply: the structured output parser
    validates it against the schema; a transport fault is raised as it is. *)
Definition answer {R A} (validate : R -> Validated A) (r : Reply R) : Outcome A :=
  match r with
  | Structured r =>
      match validate r with
      | Valid a => Ok a
      | Invalid errs => Raise (ValidationError errs)
      end
  | Unstructured errs => Raise (ValidationError errs)
  | Fault msg => Raise (TransportError msg)
  end.

(** [chain.invoke(payload)]: one outbound call, then the schema. *)
Definition invoke {R A} (st : Stage) (llm : nat -> gmap string string -> Reply R)
    (validate : R -> Validated A) (payload : gmap string string) : M World A :=
  n ← gets (fun w => length (calls w));
  log_call st payload;;
  outcome (answer validate (llm n payload)).

(** [x or d] on an [Optional[str]] *)
Definition py_or (x : option string) (d : string) : string :=
  match x with
  | None | Some "" => d
  | Some s => s
  end.

(** [payload[k] += s] *)
Definition iadd (k s : string) (payload : gmap string string) : gmap string string :=
  alter (fun v => v +:+ s) k payload.

(** [{"risk": k, "mitigation": v}] *)
Definition risk_record (k v : string) : gmap string string :=
  {[ "risk" := k; "mitigation" := v ]}.

(** [[{"risk": k, "mitigation": v} for k, v in risks.items()]] *)
Definition risk_records (kvs : list (string * string)) : list (gmap string string) :=
  (fun kv => risk_record kv.1 kv.2) <$> kvs.

(** the character [\n] *)
Definition newline : string := String (Ascii.ascii_of_nat 10) EmptyString.

Fixpoint join (sep : string) (l : list string) : string :=
  match l with
  | [] => ""
  | [x] => x
  | x :: l' => x +:+ sep +:+ join sep l'
  end.

(** ** app.py: the form and [st.session_state] *)

Record Form := mkForm {
  goal : string;
  audience : string;
  constraints : string
}.

Record Session := mkSession {
  research : option ResearchOut;
  plan : option PlanOut;
  assets : option AssetsOut;
  edit_mode : bool
}.

Record App := mkApp {
  session_state : Session;
  world : World
}.

(** [r.risks = v] and [p.risks = v] *)
Definition set_research_risks (v : Risks) (r : ResearchOut) : ResearchOut :=
  {| targets := targets r; insights := insights r;
     research_risks := v; references := references r |}.

Definition set_plan_risks (v : Risks) (p : PlanOut) : PlanOut :=
  {| milestones := milestones p; success_metrics := success_metrics p;
     plan_risks := v |}.

(** [st.session_state.research = r] and its siblings *)
Definition store_research (r : ResearchOut) (s : Session) : Session :=
  {| research := Some r; plan := plan s; assets := assets s; edit_mode := edit_mode s |}.

Definition store_plan (p : PlanOut) (s : Session) : Session :=
  {| research := research s; plan := Some p; assets := assets s; edit_mode := edit_mode s |}.

Definition store_assets (x : AssetsOut) (s : Session) : Session :=
  {| research := research s; plan := plan s; assets := Some x; edit_mode := edit_mode s |}.

Definition store_edit_mode (b : bool) (s : Session) : Session :=
  {| research := research s; plan := plan s; assets := assets s; edit_mode := b |}.

Definition on_session (f : Session -> Session) : M App unit :=
  modify (fun a => {| session_state := f (session_state a); world := world a |}).

Definition set_research (r : ResearchOut) : M App unit := on_session (store_research r).
Definition set_plan (p : PlanOut) : M App unit := on_session (store_plan p).
Definition set_assets (x : AssetsOut) : M App unit := on_session (store_assets x).
Definition set_edit_mode (b : bool) : M App unit := on_session (store_edit_mode b).

(** [st.success], [st.error], [st.warning], [st.caption] *)
Definition st_show (u : UiMsg) : M App unit :=
  modify (fun a =>
    {| session_state := session_state a; world := add_shown u (world a) |}).

(** A stage function runs over the world only: the stage modules do not
    import streamlit and never see [st.session_state]. *)
Definition stage {A} (m : M World A) : M App A :=
  fun a =>
    let '(r, w) := m (world a) in
    (r, {| session_state := session_state a; world := w |}).

(** [if isinstance(risks, dict): risks = [{"risk": k, "mitigation": v} ...]] *)
Definition normalize_risks (r : Risks) : Risks :=
  match r with
  | RisksDict kvs => RisksList (risk_records kvs)
  | RisksList items => RisksList items
  end.

(** The list held by a risks field once it has been normalized. *)
Definition risk_items (r : Risks) : list (gmap string string) :=
  match normalize_risks r with
  | RisksList items => items
  | RisksDict _ => []
  end.

(** [d[k]] *)
Definition getitem (k : string) (d : gmap string string) : Outcome string :=
  match d !! k with
  | Some v => Ok v
  | None => Raise (KeyError k)
  end.

(** [[f(x) for x in l]] where [f] may raise *)
Fixpoint comprehension {A B} (f : A -> Outcome B) (l : list A) : Outcome (list B) :=
  match l with
  | [] => mret []
  | x :: l' => y ← f x; ys ← comprehension f l'; mret (y :: ys)
  end.

Section Pipeline.

Variable svc : Service.

(** Python's [repr] of a [str] and pydantic's [model_dump_json] are
    library functions; the pipeline only concatenates their results. *)
Variable repr : string -> string.
Variable model_dump_json : PlanOut -> string.

(** [str] of a list of strings, as an f-string field prints it *)
Definition list_str (l : list string) : string :=
  "[" +:+ join ", " (repr <$> l) +:+ "]".

(** *** researcher_groq.py *)

Definition make_research (goal audience constraints : string) : M World ResearchOut :=
  enter Research;;
  n ← gets (fun w => length (calls w));
  outcome (research_client svc n);;
  let chain := invoke Research (research_llm svc) Valid in
  chain {[ "goal" := goal; "audience" := audience; "constraints" := constraints ]}.

(** *** planner_groq.py *)

Definition planner_chain : gmap string string -> M World PlanOut :=
  invoke Plan (planner_llm svc) validate_PlanOut.

Definition make_plan (goal : string) (audience constraints : option string)
  : M World PlanOut :=
  enter Plan;;
  let payload : gmap string string :=
    {[ "goal" := goal;
       "audience" := py_or audience "general";
       "constraints" := py_or constraints "keep budget low" ]} in
  try_except_ValidationError
    (planner_chain payload)
    (planner_chain (iadd "constraints" " STRICT JSON ONLY." payload)).

(** *** producer_groq.py *)

Definition producer_chain : gmap string string -> M World AssetsOut :=
  invoke Assets (producer_llm svc) Valid.

Definition research_summary_of (research : option ResearchOut) : Outcome string :=
  match research with
  | Some research =>
      let rrisks := risk_items (research_risks research) in
      top2 ← comprehension (getitem "risk") (take 2 rrisks);
      mret ("targets=" +:+ list_str (name <$> targets research) +:+ newline
            +:+ "insights_top3=" +:+ list_str (take 3 (insights research)) +:+ newline
            +:+ "risks_top2=" +:+ list_str top2)
  | None => mret ""
  end.

Definition make_assets (goal : string) (audience constraints : option string)
    (plan : PlanOut) (research : option ResearchOut) : M World AssetsOut :=
  enter Assets;;
  research_summary ← outcome (research_summary_of research);
  let payload : gmap string string :=
    {[ "goal" := goal;
       "audience" := py_or audience "general";
       "constraints" := py_or constraints "concise, friendly";
       "plan_json" := model_dump_json plan;
       "research_summary" := research_summary ]} in
  try_except_ValidationError
    (producer_chain payload)
    (producer_chain (iadd "constraints" " STRICT JSON ONLY." payload)).

(** *** app.py: Run all *)

Definition run_all_research (f : Form) : M App unit :=
  try_except
    (r ← stage (make_research (goal f) (audience f) (constraints f));
     let r := set_research_risks (normalize_risks (research_risks r)) r in
     set_research r;;
     st_show (success "Research ready ✅"))
    (fun e => st_show (error "Research failed.");; st_show (caption e)).

Definition run_all_plan (f : Form) : M App unit :=
  stored ← gets (fun a => research (session_state a));
  if stored is Some _ then
    try_except
      (p ← stage (make_plan (goal f) (Some (audience f)) (Some (constraints f)));
       let p := set_plan_risks (normalize_risks (plan_risks p)) p in
       set_plan p;;
       st_show (success "Plan ready ✅"))
      (fun e => st_show (error "Plan failed.");; st_show (caption e))
  else mret ().

(** [st.session_state.plan] is read for the guard and again for the
    argument; nothing runs in between, so it is bound once. *)
Definition run_all_assets (f : Form) : M App unit :=
  stored ← gets (fun a => plan (session_state a));
  match stored with
  | Some p =>
      try_except
        (r ← gets (fun a => research (session_state a));
         a ← stage (make_assets (goal f) (Some (audience f))
                      (Some (constraints f)) p r);
         set_assets a;;
         st_show (success "Assets ready ✅"))
        (fun e => st_show (error "Assets failed.");; st_show (caption e))
  | None => mret ()
  end.

Definition run_all (f : Form) : M App unit :=
  run_all_research f;; run_all_plan f;; run_all_assets f.

(** *** app.py: the single-stage buttons *)

Definition run_research (f : Form) : M App unit :=
  try_except
    (r ← stage (make_research (goal f) (audience f) (constraints f));
     let r := set_research_risks (normalize_risks (research_risks r)) r in
     set_research r;;
     st_show (success "Research ready ✅"))
    (fun e => st_show (error "Research failed. Please try again.");;
              st_show (caption e)).

Definition run_plan (f : Form) : M App unit :=
  try_except
    (p ← stage (make_plan (goal f) (Some (audience f)) (Some (constraints f)));
     let p := set_plan_risks (normalize_risks (plan_risks p)) p in
     set_plan p;;
     set_edit_mode true;;
     st_show (success "Plan ready ✅ — you can edit it below before producing assets."))
    (fun e => st_show (error "Plan failed. Please try again.");;
              st_show (caption e)).

Definition run_assets (f : Form) : M App unit :=
  try_except
    (stored ← gets (fun a => plan (session_state a));
     match stored with
     | None => st_show (warning "Run planning first.")
     | Some p =>
         r ← gets (fun a => research (session_state a));
         a ← stage (make_assets (goal f) (Some (audience f))
                      (Some (constraints f)) p r);
         set_assets a;;
         st_show (success "Assets ready ✅")
     end)
    (fun e => st_show (error "Asset generation failed. Please try again.");;
              st_show (caption e)).

(** *** The stages, uniformly

    The call a handler makes for a stage, and the handler of a stage in
    each of the two entry modes. *)

Inductive Mode := SingleStage | RunAll.

(** Whether the call a handler makes for a stage raises, from a given
    session and world.  The Assets call is made on the stored plan; without
    one there is no call. *)
Definition stage_raises (st : Stage) (f : Form) (s : Session) (w : World) : bool :=
  match st with
  | Research => is_raise (make_research (goal f) (audience f) (constraints f) w)
  | Plan => is_raise (make_plan (goal f) (Some (audience f)) (Some (constraints f)) w)
  | Assets =>
      match plan s with
      | Some p => is_raise (make_assets (goal f) (Some (audience f))
                              (Some (constraints f)) p (research s) w)
      | None => false
      end
  end.

Definition handler (m : Mode) (st : Stage) : Form -> M App unit :=
  match m, st with
  | SingleStage, Research => run_research
  | SingleStage, Plan => run_plan
  | SingleStage, Assets => run_assets
  | RunAll, Research => run_all_research
  | RunAll, Plan => run_all_plan
  | RunAll, Assets => run_all_assets
  end.

End Pipeline.

(** ** app.py: the rest of the page *)

(** *** Session buckets

    What the four [st.session_state.setdefault] lines leave in a new
    session. *)
Definition session_buckets : Session :=
  {| research := None; plan := None; assets := None; edit_mode := false |}.

(** *** Reset

    The four assignments of the [if clear_all:] block; the rerun that
    follows starts the script again with no button pressed. *)
Definition clear_all : M App unit :=
  on_session (fun _ =>
    {| research := None; plan := None; assets := None; edit_mode := false |}).

(** *** The plan edit form

    [st.text_input(label, value, key=key)] gives back what the widget
    holds: a function of the label, the default value and the key. *)
Definition TextInput : Type := string -> string -> string -> string.

(** The loop over [enumerate(p.milestones)] that fills [new_milestones],
    started at index [i]. *)
Fixpoint new_milestones (text_input : TextInput) (i : nat) (ms : list Milestone)
  : list Milestone :=
  match ms with
  | [] => []
  | m :: ms' =>
      let t := text_input "Title" (title m) ("title_" +:+ pretty i) in
      let due := text_input "Due (YYYY-MM-DD)" (due m) ("due_" +:+ pretty i) in
      {| title := t; due := due; tasks := tasks m |}
        :: new_milestones text_input (S i) ms'
  end.

(** [p.milestones = v] *)
Definition set_milestones (v : list Milestone) (p : PlanOut) : PlanOut :=
  {| milestones := v; success_metrics := success_metrics p;
     plan_risks := plan_risks p |}.

(** The form is rendered under [if st.session_state.plan:], so its submit
    button exists only with a plan in the store. *)
Definition save (text_input : TextInput) : M App unit :=
  stored ← gets (fun a => plan (session_state a));
  match stored with
  | Some p =>
      let p := set_milestones (new_milestones text_input 0 (milestones p)) p in
      set_plan p;;
      st_show (success "Saved.")
  | None => mret ()
  end.

(** *** One run of the script

    A press of a button reruns the script with that button [True] and every
    other one [False]. *)
Inductive Button :=
  | Btn_run_research
  | Btn_run_plan
  | Btn_run_assets
  | Btn_clear_all
  | Btn_run_all
  | Btn_save (text_input : TextInput).

Section Page.

Variable svc : Service.
Variable repr : string -> string.
Variable model_dump_json : PlanOut -> string.

Definition rerun (b : Button) (f : Form) : M App unit :=
  match b with
  | Btn_run_research => run_research svc f
  | Btn_run_plan => run_plan svc f
  | Btn_run_assets => run_assets svc repr model_dump_json f
  | Btn_clear_all => clear_all
  | Btn_run_all => run_all svc repr model_dump_json f
  | Btn_save text_input => save text_input
  end.

(** A visit: the presses of a user, each with the form as it stood. *)
Fixpoint visit (presses : list (Button * Form)) : M App unit :=
  match presses with
  | [] => mret ()
  | (b, f) :: presses' => rerun b f;; visit presses'
  end.

End Page.

(** ** app.py: Deliver *)

(** *** The characters of a [str]

    A [str] is a sequence of Unicode code points.  This file holds a [str]
    as the text of its UTF-8 encoding, the way its string literals do, and
    [codepoints] reads the code points back: the well-formed byte sequences
    of the Unicode standard, no overlong forms, no surrogates, nothing above
    U+10FFFF.  Text that is the encoding of no [str] has no code points. *)
Definition continuation (b : N) : bool := ((128 <=? b) && (b <=? 191))%N.

Fixpoint utf8_decode (bs : list N) : option (list N) :=
  match bs with
  | [] => Some []
  | b0 :: bs1 =>
      if (b0 <? 128)%N then cons b0 <$> utf8_decode bs1
      else if ((194 <=? b0) && (b0 <=? 223))%N then
        match bs1 with
        | b1 :: bs2 =>
            if continuation b1 then
              cons ((b0 - 192) * 64 + (b1 - 128))%N <$> utf8_decode bs2
            else None
        | _ => None
        end
      else if ((224 <=? b0) && (b0 <=? 239))%N then
        match bs1 with
        | b1 :: b2 :: bs3 =>
            let lo := (if b0 =? 224 then 160 else 128)%N in
            let hi := (if b0 =? 237 then 159 else 191)%N in
            if ((lo <=? b1) && (b1 <=? hi))%N && continuation b2 then
              cons ((b0 - 224) * 4096 + (b1 - 128) * 64 + (b2 - 128))%N
                <$> utf8_decode bs3
            else None
        | _ => None
        end
      else if ((240 <=? b0) && (b0 <=? 244))%N then
        match bs1 with
        | b1 :: b2 :: b3 :: bs4 =>
            let lo := (if b0 =? 240 then 144 else 128)%N in
            let hi := (if b0 =? 244 then 143 else 191)%N in
            if ((lo <=? b1) && (b1 <=? hi))%N && continuation b2 && continuation b3 then
              cons ((b0 - 240) * 262144 + (b1 - 128) * 4096
                    + (b2 - 128) * 64 + (b3 - 128))%N
                <$> utf8_decode bs4
            else None
        | _ => None
        end
      else None
  end.

Definition codepoints (x : string) : option (list N) :=
  utf8_decode (N_of_ascii <$> String.list_ascii_of_string x).

(** [ord(c)] of an ASCII character *)
Definition ord (c : ascii) : N := N_of_ascii c.

(** *** The part of [re] that [valid_email] uses

    A pattern without groups over code points, matched through its
    derivatives: a pattern matches a string when its derivative along the
    string matches the empty string.  [Nothing] and [Alt] arise as
    derivatives only. *)
Inductive Pattern :=
  | Nothing
  | Empty
  | Lit (c : N)
  | NoneOf (excluded : N -> bool)
  | Seq (p q : Pattern)
  | Alt (p q : Pattern)
  | Star (p : Pattern).

(** [p+] *)
Definition OneOrMore (p : Pattern) : Pattern := Seq p (Star p).

Fixpoint nullable (p : Pattern) : bool :=
  match p with
  | Nothing | Lit _ | NoneOf _ => false
  | Empty | Star _ => true
  | Seq p q => nullable p && nullable q
  | Alt p q => nullable p || nullable q
  end.

Fixpoint derive (c : N) (p : Pattern) : Pattern :=
  match p with
  | Nothing | Empty => Nothing
  | Lit c' => if decide (c = c') then Empty else Nothing
  | NoneOf excluded => if excluded c then Nothing else Empty
  | Seq p q =>
      if nullable p then Alt (Seq (derive c p) q) (derive c q)
      else Seq (derive c p) q
  | Alt p q => Alt (derive c p) (derive c q)
  | Star p => Seq (derive c p) (Star p)
  end.

Fixpoint fullmatch (p : Pattern) (s : list N) : bool :=
  match s with
  | [] => nullable p
  | c :: s' => fullmatch (derive c p) s'
  end.

(** The string before the newline that ends it, if one does. *)
Definition before_final_newline (s : list N) : option (list N) :=
  match reverse s with
  | c :: r => if decide (c = 10%N) then Some (reverse r) else None
  | [] => None
  end.

(** [re.match(r"^p$", x)] as a truth value.  [re.match] looks at the start
    of the string only, and [$] holds at the end of the string and just
    before a newline that ends it. *)
Definition re_match_to_end (p : Pattern) (x : string) : bool :=
  match codepoints x with
  | Some s =>
      fullmatch p s
      || (if before_final_newline s is Some y then fullmatch p y else false)
  | None => false
  end.

(** *** The mail settings, the message and the desk *)

Record Settings := mkSettings {
  environ : gmap string string;
  secrets : gmap string string
}.

(** [os.getenv(k, d)] and [st.secrets.get(k, d)] *)
Definition getenv (cfg : Settings) (k d : string) : string := default d (environ cfg !! k).
Definition secrets_get (cfg : Settings) (k d : string) : string := default d (secrets cfg !! k).

Record EmailMessage := mkEmailMessage {
  Subject : string;
  From : string;
  To : string;
  content : string
}.

(** One [smtplib.SMTP_SSL(host, port)] session with its [login] and its
    [send_message]. *)
Record Connection := mkConnection {
  conn_host : string;
  conn_port : Z;
  conn_user : string;
  conn_pw : string;
  sent : EmailMessage
}.

(** What Deliver can be seen to do: the sessions opened with the mail
    server and what the page displayed. *)
Record Desk := mkDesk {
  attempts : list Connection;
  notices : list UiMsg
}.

Record DeliverForm := mkDeliverForm {
  email_subject : string;
  email_body : string;
  recipient_email : string;
  sender_email : string;
  confirm : bool
}.

Definition notice (u : UiMsg) : M Desk unit :=
  modify (fun d => {| attempts := attempts d; notices := notices d ++ [u] |}).

(** The truth value of a [str] and of an [int] *)
Definition str_bool (s : string) : bool := if s is "" then false else true.
Definition int_bool (n : Z) : bool := negb (n =? 0).

Section Deliver.

(** [\s]: which code points are whitespace. *)
Variable isspace : N -> bool.

Variable cfg : Settings.

(** Library code: [int] of a [str], the header assignments of
    [EmailMessage] (which refuse some values), the mail server, and the
    text of an exception. *)
Variable int : string -> Outcome Z.
Variable headers_refused : EmailMessage -> option Exn.
Variable server : Connection -> Outcome unit.
Variable str : Exn -> string.

(** [[^@\s]] *)
Definition at_or_space (c : N) : bool := bool_decide (c = ord "@") || isspace c.

(** [^[^@\s]+@[^@\s]+\.[^@\s]+$] *)
Definition email_pattern : Pattern :=
  Seq (OneOrMore (NoneOf at_or_space))
    (Seq (Lit (ord "@"))
       (Seq (OneOrMore (NoneOf at_or_space))
          (Seq (Lit (ord ".")) (OneOrMore (NoneOf at_or_space))))).

Definition valid_email (x : string) : bool :=
  re_match_to_end email_pattern (py_or (Some x) "").

Definition new_message (subject from to body : string) : Outcome EmailMessage :=
  let msg := {| Subject := subject; From := from; To := to; content := body |} in
  match headers_refused msg with
  | Some e => Raise e
  | None => Ok msg
  end.

(** [with smtplib.SMTP_SSL(...) as server: server.login(...); server.send_message(msg)] *)
Definition connect_and_send (c : Connection) : M Desk unit :=
  modify (fun d => {| attempts := attempts d ++ [c]; notices := notices d |});;
  outcome (server c).

Definition smtp_send (subject body sender recipient : string) : M Desk (bool * string) :=
  let host := getenv cfg "SMTP_HOST" (secrets_get cfg "SMTP_HOST" "") in
  port ← outcome (int (getenv cfg "SMTP_PORT"
                         (py_or (Some (secrets_get cfg "SMTP_PORT" "0")) "0")));
  let user := getenv cfg "SMTP_USER" (secrets_get cfg "SMTP_USER" "") in
  let pw := getenv cfg "SMTP_PASS" (secrets_get cfg "SMTP_PASS" "") in
  if negb (forallb id [str_bool host; int_bool port; str_bool user; str_bool pw]) then
    mret (false, "SMTP not configured in secrets.")
  else
    msg ← outcome (new_message subject (py_or (Some sender) user) recipient body);
    try_except
      (connect_and_send {| conn_host := host; conn_port := port; conn_user := user;
                           conn_pw := pw; sent := msg |};;
       mret (true, "Email sent ✅"))
      (fun e => mret (false, "Send failed: " +:+ str e)).

(** [if submit:] and its guardrails *)
Definition submit (d : DeliverForm) : M Desk unit :=
  if negb (confirm d) then
    notice (warning "Please confirm the recipient and content.")
  else if negb (valid_email (recipient_email d)) then
    notice (error "Recipient email looks invalid.")
  else if negb (valid_email (sender_email d)) then
    notice (error "Sender email looks invalid.")
  else
    result ← smtp_send (email_subject d) (email_body d) (sender_email d)
               (recipient_email d);
    let ok : bool := result.1 in
    let msg : string := result.2 in
    notice ((if ok then success else error) msg).

End Deliver.

(** ** Concrete documents, services and states used in the examples *)

Definition form_podcast : Form :=
  {| goal := "Launch a podcast in 2 weeks";
     audience := "aspiring CS students";
     constraints := "low budget; weekly episodes; concise" |}.

Definition form_blank : Form :=
  {| goal := "Launch a podcast in 2 weeks"; audience := ""; constraints := "" |}.

Definition research_doc : ResearchOut :=
  {| targets := [ {| name := "students"; why := "core audience" |};
                  {| name := "clubs"; why := "distribution" |} ];
     insights := [ "short episodes"; "weekly cadence"; "free hosting";
                   "guest speakers"; "campus radio" ];
     research_risks := RisksDict [ ("no listeners", "promote early");
                                   ("burnout", "batch record");
                                   ("gear cost", "borrow") ];
     references := [ {| ref_title := "Guide"; url := "https://example.org/a" |} ] |}.

Definition research_doc_listed : ResearchOut :=
  set_research_risks
    (RisksList [ risk_record "no listeners" "promote early";
                 risk_record "burnout" "batch record";
                 risk_record "gear cost" "borrow" ])
    research_doc.

(** A risks list the schema admits ([Dict[str, str]] items with any keys)
    whose second item has no ["risk"] key. *)
Definition research_doc_unkeyed : ResearchOut :=
  set_research_risks
    (RisksList [ risk_record "no listeners" "promote early";
                 {[ "severity" := "high" ]} ])
    research_doc.

Definition raw_task (e : Z) : RawTask :=
  {| raw_desc := "record"; raw_owner := None; raw_effort_hrs := e |}.

Definition raw_milestone (efforts : list Z) : RawMilestone :=
  {| raw_title := "Pilot"; raw_due := "2026-01-15"; raw_tasks := raw_task <$> efforts |}.

Definition raw_plan (ms : list (list Z)) : RawPlan :=
  {| raw_milestones := raw_milestone <$> ms;
     raw_success_metrics := [ "100 downloads" ];
     raw_risks := RisksDict [ ("slip", "buffer week") ] |}.

Definition raw_plan_ok : RawPlan := raw_plan [ [2; 3]; [4; 12] ].
Definition raw_plan_one_milestone : RawPlan := raw_plan [ [2; 3] ].
Definition raw_plan_six_tasks : RawPlan := raw_plan [ [1; 2; 3; 4; 5; 6]; [2; 3] ].
Definition raw_plan_effort_13 : RawPlan := raw_plan [ [2; 3]; [13; 4] ].

Definition task (e : Z) : TaskItem :=
  {| desc := "record"; owner := "You"; effort_hrs := e |}.

Definition plan_of (ms : list (list Z)) (r : Risks) : PlanOut :=
  {| milestones := (fun es => {| title := "Pilot"; due := "2026-01-15";
                                tasks := task <$> es |}) <$> ms;
     success_metrics := [ "100 downloads" ];
     plan_risks := r |}.

Definition plan_doc : PlanOut :=
  plan_of [ [2; 3]; [4; 12] ] (RisksList [ risk_record "slip" "buffer week" ]).

Definition old_plan_doc : PlanOut :=
  plan_of [ [1; 1]; [1; 1] ] (RisksList []).

Definition assets_doc : AssetsOut :=
  {| launch_email := "Subject: We are live";
     social_posts := [ "Episode 1 is out"; "Subscribe"; "Tell a friend" ];
     script_outline := "## Intro";
     weekly_checklist := "- [ ] record" |}.

(** Every request is answered with a well-formed document. *)
Definition svc_ok : Service :=
  {| research_client := fun _ => Ok ();
     research_llm := fun _ _ => Structured research_doc;
     planner_llm := fun _ _ => Structured raw_plan_ok;
     producer_llm := fun _ _ => Structured assets_doc |}.

(** The very first outbound call is answered off-schema, every later one
    with a well-formed document. *)
Definition svc_first_off_schema : Service :=
  {| research_client := fun _ => Ok ();
     research_llm := fun n _ => if n is O then Unstructured [] else Structured research_doc;
     planner_llm := fun n _ => if n is O then Structured raw_plan_effort_13
                               else Structured raw_plan_ok;
     producer_llm := fun n _ => if n is O then Unstructured [] else Structured assets_doc |}.

(** Nothing the model says fits a schema. *)
Definition svc_off_schema : Service :=
  {| research_client := fun _ => Ok ();
     research_llm := fun _ _ => Unstructured [];
     planner_llm := fun _ _ => Structured raw_plan_effort_13;
     producer_llm := fun _ _ => Unstructured [] |}.

(** The research request hits a transport fault; the others are answered. *)
Definition svc_research_down : Service :=
  {| research_client := fun _ => Ok ();
     research_llm := fun _ _ => Fault "rate limited";
     planner_llm := fun _ _ => Structured raw_plan_ok;
     producer_llm := fun _ _ => Structured assets_doc |}.

(** The planner request hits a transport fault; the others are answered. *)
Definition svc_planner_down : Service :=
  {| research_client := fun _ => Ok ();
     research_llm := fun _ _ => Structured research_doc;
     planner_llm := fun _ _ => Fault "rate limited";
     producer_llm := fun _ _ => Structured assets_doc |}.

(** Every request hits a transport fault. *)
Definition svc_down : Service :=
  {| research_client := fun _ => Ok ();
     research_llm := fun _ _ => Fault "rate limited";
     planner_llm := fun _ _ => Fault "rate limited";
     producer_llm := fun _ _ => Fault "rate limited" |}.

Definition repr_quoted (s : string) : string := "'" +:+ s +:+ "'".

Definition dump_titles (p : PlanOut) : string := join "," (title <$> milestones p).

(** A form nobody touched, and one where the first title was retyped. *)
Definition typed_nothing : TextInput := fun _ value _ => value.

Definition typed_new_title : TextInput :=
  fun _ value key => if decide (key = "title_0") then "Kickoff" else value.

(** The code points Python counts as whitespace; a mail account that is
    set up, through the environment for the host and through the secrets
    for the rest; library code that goes well; and a form that is filled in
    and confirmed. *)
Definition unicode_space (c : N) : bool :=
  bool_decide (c ∈ [ 9; 10; 11; 12; 13; 28; 29; 30; 31; 32; 133; 160; 5760;
                     8192; 8193; 8194; 8195; 8196; 8197; 8198; 8199; 8200; 8201;
                     8202; 8232; 8233; 8239; 8287; 12288 ]%N).

Definition settings_ok : Settings :=
  {| environ := {[ "SMTP_HOST" := "smtp.example.org" ]};
     secrets := {[ "SMTP_PORT" := "465"; "SMTP_USER" := "ada@example.org";
                   "SMTP_PASS" := "secret" ]} |}.

Definition int_465 (s : string) : Outcome Z := Ok 465.
Definition headers_fine (m : EmailMessage) : option Exn := None.
Definition server_up (c : Connection) : Outcome unit := Ok ().
Definition str_text (e : Exn) : string := "error".

Definition deliver_form : DeliverForm :=
  {| email_subject := "We are live"; email_body := "Subject: We are live";
     recipient_email := "grace@example.org"; sender_email := "ada@example.org";
     confirm := true |}.

Definition desk_empty : Desk := {| attempts := []; notices := [] |}.

Definition world_fresh : World := {| entered := []; calls := []; shown := [] |}.

Definition session_empty : Session :=
  {| research := None; plan := None; assets := None; edit_mode := false |}.

Definition session_full : Session :=
  {| research := Some research_doc_listed; plan := Some old_plan_doc;
     assets := Some assets_doc; edit_mode := false |}.

Definition app_fresh : App := {| session_state := session_empty; world := world_fresh |}.

Definition app_used : App := {| session_state := session_full; world := world_fresh |}.

(** ** Vocabulary of the statements *)

(** The bound of [TaskItem.effort_hrs]. *)
Definition effort_ok (t : RawTask) : Prop := 1 ≤ raw_effort_hrs t ≤ 12.

#[global] Instance effort_ok_dec (t : RawTask) : Decision (effort_ok t).
Proof. unfold effort_ok. apply _. Defined.

Definition efforts_ok (p : RawPlan) : Prop :=
  Forall (fun m => Forall effort_ok (raw_tasks m)) (raw_milestones p).

#[global] Instance efforts_ok_dec (p : RawPlan) : Decision (efforts_ok p).
Proof. unfold efforts_ok. apply _. Defined.

(** The documents of the session store, and the slot of a stage. *)
Inductive Doc :=
  | ResearchDoc (r : ResearchOut)
  | PlanDoc (p : PlanOut)
  | AssetsDoc (x : AssetsOut).

Definition slot (st : Stage) (s : Session) : option Doc :=
  match st with
  | Research => ResearchDoc <$> research s
  | Plan => PlanDoc <$> plan s
  | Assets => AssetsDoc <$> assets s
  end.

(** What a computation added to the world: the stages it entered and the
    outbound calls it made. *)
Definition entered_since (w w' : World) : list Stage :=
  drop (length (entered w)) (entered w').

Definition calls_since (w w' : World) : list (Stage * gmap string string) :=
  drop (length (calls w)) (calls w').

(** A reply read as a document with nothing altered: every field as
    received, the absent [owner] filled with its default. *)
Definition as_TaskItem (t : RawTask) : TaskItem :=
  {| desc := raw_desc t; owner := default "You" (raw_owner t);
     effort_hrs := raw_effort_hrs t |}.

Definition as_Milestone (m : RawMilestone) : Milestone :=
  {| title := raw_title m; due := raw_due m; tasks := as_TaskItem <$> raw_tasks m |}.

Definition as_PlanOut (p : RawPlan) : PlanOut :=
  {| milestones := as_Milestone <$> raw_milestones p;
     success_metrics := raw_success_metrics p;
     plan_risks := raw_risks p |}.

(** The first request of the Plan stage and of the Assets stage. *)
Definition plan_request (g : string) (a c : option string) : gmap string string :=
  {[ "goal" := g; "audience" := py_or a "general";
     "constraints" := py_or c "keep budget low" ]}.

Definition assets_request (g : string) (a c : option string) (plan_json summary : string)
  : gmap string string :=
  {[ "goal" := g; "audience" := py_or a "general";
     "constraints" := py_or c "concise, friendly";
     "plan_json" := plan_json; "research_summary" := summary ]}.

Definition is_ValidationError {A} (o : Outcome A) : bool :=
  match o with
  | Raise (ValidationError _) => true
  | _ => false
  end.

(** A payload field that is present and not the empty string. *)
Definition filled (k : string) (payload : gmap string string) : Prop :=
  ∃ v, payload !! k = Some v ∧ v ≠ "".

(** The exception of a computation, if it raised. *)
Definition raised {A S} (r : Outcome A * S) : option Exn :=
  match r.1 with
  | Raise e => Some e
  | Ok _ => None
  end.

(** The exception of the call a handler makes for a stage, if that call
    raises. *)
Definition stage_exception (svc : Service) (repr : string -> string)
    (model_dump_json : PlanOut -> string) (st : Stage) (f : Form) (s : Session)
    (w : World) : option Exn :=
  match st with
  | Research => raised (make_research svc (goal f) (audience f) (constraints f) w)
  | Plan => raised (make_plan svc (goal f) (Some (audience f)) (Some (constraints f)) w)
  | Assets =>
      match plan s with
      | Some p => raised (make_assets svc repr model_dump_json (goal f)
                            (Some (audience f)) (Some (constraints f)) p (research s) w)
      | None => None
      end
  end.

(** What a press of a button added to the page. *)
Definition shown_since (w w' : World) : list UiMsg :=
  drop (length (shown w)) (shown w').

(** The effort bound on a stored plan, and a risks field in list form. *)
Definition plan_efforts_ok (p : PlanOut) : Prop :=
  Forall (fun m => Forall (fun t => 1 ≤ effort_hrs t ≤ 12) (tasks m)) (milestones p).

Definition risks_listed (r : Risks) : Prop :=
  match r with
  | RisksList _ => True
  | RisksDict _ => False
  end.

(** A part of an address: not empty, with no [@] and no whitespace in it. *)
Definition plain (isspace : N -> bool) (s : list N) : Prop :=
  s ≠ [] ∧ Forall (fun c => c ≠ ord "@" ∧ isspace c = false) s.

(** What is kept of the store from one run of the script to the next. *)
Definition store_ok (s : Session) : Prop :=
  (is_Some (assets s) -> is_Some (plan s)) ∧
  (∀ r, research s = Some r -> risks_listed (research_risks r)) ∧
  (∀ p, plan s = Some p -> risks_listed (plan_risks p) ∧ plan_efforts_ok p).

(** * Properties *)

(** ** Schema validation *)

Lemma check_effort_hrs_ok (e : Z) : 1 ≤ e ≤ 12 -> check_effort_hrs e = [].
Proof.
  intros [Hlo Hhi]. unfold check_effort_hrs.
  destruct (Z.ltb_spec e 1); [lia|].
  destruct (Z.ltb_spec 12 e); [lia|]. reflexivity.
Qed.

Lemma check_effort_hrs_bad (e : Z) : ¬ (1 ≤ e ≤ 12) -> check_effort_hrs e ≠ [].
Proof.
  intros Hbad. unfold check_effort_hrs.
  destruct (Z.ltb_spec e 1); [discriminate|].
  destruct (Z.ltb_spec 12 e); [discriminate|]. lia.
Qed.

Lemma validate_TaskItem_ok (t : RawTask) :
  effort_ok t -> validate_TaskItem t = Valid (as_TaskItem t).
Proof.
  intros H. unfold validate_TaskItem. by rewrite check_effort_hrs_ok.
Qed.

Lemma validate_TaskItem_bad (t : RawTask) :
  ¬ effort_ok t -> ∃ errs, errs ≠ [] ∧ validate_TaskItem t = Invalid errs.
Proof.
  intros H. unfold validate_TaskItem.
  pose proof (check_effort_hrs_bad _ H) as Hne.
  destruct (check_effort_hrs (raw_effort_hrs t)) as [|e es]; [done|].
  by exists (e :: es).
Qed.

Lemma fmap_under_nonempty (p : list LocItem) (errs : list ErrorDetail) :
  errs ≠ [] -> under p <$> errs ≠ [].
Proof. by destruct errs. Qed.

(** A list field is accepted exactly when each of its elements is, whatever
    its length. *)
Lemma validate_list_spec {R A} (v : R -> Validated A) (acc : R -> A) (ok : R -> Prop)
    `{!∀ x, Decision (ok x)} :
  (∀ x, ok x -> v x = Valid (acc x)) ->
  (∀ x, ¬ ok x -> ∃ errs, errs ≠ [] ∧ v x = Invalid errs) ->
  ∀ l i,
    (Forall ok l -> validate_list v i l = Valid (acc <$> l)) ∧
    (¬ Forall ok l -> ∃ errs, errs ≠ [] ∧ validate_list v i l = Invalid errs).
Proof.
  intros Hok Hbad. induction l as [|x l IH]; intros i.
  - split; [done|]. intros Hn. destruct Hn. constructor.
  - destruct (IH (S i)) as [IHok IHbad]. simpl. split.
    + intros [Hx Hl]%Forall_cons. by rewrite (Hok _ Hx), (IHok Hl).
    + intros Hn. destruct (decide (ok x)) as [Hx|Hx].
      * rewrite (Hok _ Hx).
        destruct IHbad as (errs & Hne & ->); [|by exists errs].
        intros Hl. apply Hn. by constructor.
      * destruct (Hbad _ Hx) as (e & Hne & ->).
        destruct (validate_list v (S i) l) as [r|es].
        -- eexists. split; [|done]. by apply fmap_under_nonempty.
        -- eexists. split; [|done]. destruct e; [done|]. discriminate.
Qed.

Lemma validate_Milestone_ok (m : RawMilestone) :
  Forall effort_ok (raw_tasks m) -> validate_Milestone m = Valid (as_Milestone m).
Proof.
  intros H. unfold validate_Milestone.
  destruct (validate_list_spec validate_TaskItem as_TaskItem effort_ok
              validate_TaskItem_ok validate_TaskItem_bad (raw_tasks m) 0%nat) as [-> _];
    done.
Qed.

Lemma validate_Milestone_bad (m : RawMilestone) :
  ¬ Forall effort_ok (raw_tasks m) ->
  ∃ errs, errs ≠ [] ∧ validate_Milestone m = Invalid errs.
Proof.
  intros H. unfold validate_Milestone.
  destruct (validate_list_spec validate_TaskItem as_TaskItem effort_ok
              validate_TaskItem_ok validate_TaskItem_bad (raw_tasks m) 0%nat)
    as [_ Hbad].
  destruct (Hbad H) as (errs & Hne & ->).
  eexists. split; [|done]. by apply fmap_under_nonempty.
Qed.

(** C3, as the code has it: a Plan reply is rejected exactly when some task
    has [effort_hrs] outside 1..12 (13 for one), and an accepted reply is
    returned with every value as received, nothing clamped; the number of
    milestones and of tasks per milestone plays no part. *)
Theorem validate_PlanOut_effort_bounds (p : RawPlan) :
  (efforts_ok p -> validate_PlanOut p = Valid (as_PlanOut p)) ∧
  (¬ efforts_ok p -> ∃ errs, errs ≠ [] ∧ validate_PlanOut p = Invalid errs).
Proof.
  unfold efforts_ok, validate_PlanOut.
  destruct (validate_list_spec validate_Milestone as_Milestone
              (fun m => Forall effort_ok (raw_tasks m))
              validate_Milestone_ok validate_Milestone_bad (raw_milestones p) 0%nat)
    as [Hok Hbad].
  split.
  - intros H. by rewrite (Hok H).
  - intros H. destruct (Hbad H) as (errs & Hne & ->).
    eexists. split; [|done]. by apply fmap_under_nonempty.
Qed.

Lemma validate_PlanOut_effort_bounds_witness :
  validate_PlanOut raw_plan_ok = Valid (as_PlanOut raw_plan_ok) ∧
  ∃ errs, errs ≠ [] ∧ validate_PlanOut raw_plan_effort_13 = Invalid errs.
Proof.
  split.
  - apply (validate_PlanOut_effort_bounds raw_plan_ok).
    apply (bool_decide_eq_true_1 (efforts_ok raw_plan_ok)). vm_compute. reflexivity.
  - apply (validate_PlanOut_effort_bounds raw_plan_effort_13).
    apply (bool_decide_eq_false_1 (efforts_ok raw_plan_effort_13)). vm_compute. reflexivity.
Defined.

(** C3, as stated, fails: a reply with a single milestone and a reply with a
    milestone of six tasks both pass validation. *)
Lemma validate_PlanOut_accepts_out_of_range_counts :
  (length (raw_milestones raw_plan_one_milestone) = 1%nat ∧
   validate_PlanOut raw_plan_one_milestone = Valid (as_PlanOut raw_plan_one_milestone)) ∧
  (Exists (fun m => length (raw_tasks m) = 6%nat) (raw_milestones raw_plan_six_tasks) ∧
   validate_PlanOut raw_plan_six_tasks = Valid (as_PlanOut raw_plan_six_tasks)).
Proof.
  split; split; try reflexivity. by left.
Qed.

(** ** The stage functions *)

Section Stages.

Variable svc : Service.
Variable repr : string -> string.
Variable model_dump_json : PlanOut -> string.

Lemma invoke_eq {R A} (st : Stage) (llm : nat -> gmap string string -> Reply R)
    (v : R -> Validated A) (payload : gmap string string) (w : World) :
  invoke st llm v payload w
  = (answer v (llm (length (calls w)) payload), add_call st payload w).
Proof. reflexivity. Qed.

Lemma calls_add_call_length (st : Stage) (payload : gmap string string) (w : World) :
  length (calls (add_call st payload w)) = S (length (calls w)).
Proof. simpl. rewrite length_app. simpl. lia. Qed.

(** One request and, when it is answered off-schema, one more. *)
Lemma retry_eq {R A} (st : Stage) (llm : nat -> gmap string string -> Reply R)
    (v : R -> Validated A) (p1 p2 : gmap string string) (w : World) :
  try_except_ValidationError (invoke st llm v p1) (invoke st llm v p2) w
  = match answer v (llm (length (calls w)) p1) with
    | Raise (ValidationError _) =>
        (answer v (llm (S (length (calls w))) p2), add_call st p2 (add_call st p1 w))
    | o => (o, add_call st p1 w)
    end.
Proof.
  unfold try_except_ValidationError, try_except. rewrite invoke_eq.
  destruct (answer v (llm (length (calls w)) p1)) as [d|[errs|k|msg]]; try reflexivity.
  rewrite invoke_eq, calls_add_call_length. reflexivity.
Qed.

Lemma make_research_eq (g a c : string) (w : World) :
  make_research svc g a c w
  = match research_client svc (length (calls w)) with
    | Ok _ =>
        (answer Valid (research_llm svc (length (calls w))
                         {[ "goal" := g; "audience" := a; "constraints" := c ]}),
         add_call Research {[ "goal" := g; "audience" := a; "constraints" := c ]}
           (add_entered Research w))
    | Raise e => (Raise e, add_entered Research w)
    end.
Proof.
  unfold make_research, enter, outcome, modify, gets, mbind, M_bind.
  cbn [calls add_entered]. by destruct (research_client svc (length (calls w))).
Qed.

Lemma make_plan_eq (g : string) (a c : option string) (w : World) :
  make_plan svc g a c w
  = try_except_ValidationError
      (invoke Plan (planner_llm svc) validate_PlanOut
         {[ "goal" := g; "audience" := py_or a "general";
            "constraints" := py_or c "keep budget low" ]})
      (invoke Plan (planner_llm svc) validate_PlanOut
         {[ "goal" := g; "audience" := py_or a "general";
            "constraints" := py_or c "keep budget low" +:+ " STRICT JSON ONLY." ]})
      (add_entered Plan w).
Proof. reflexivity. Qed.

Lemma make_assets_eq (g : string) (a c : option string) (p : PlanOut)
    (r : option ResearchOut) (w : World) :
  make_assets svc repr model_dump_json g a c p r w
  = match research_summary_of repr r with
    | Ok summary =>
        try_except_ValidationError
          (invoke Assets (producer_llm svc) Valid
             {[ "goal" := g; "audience" := py_or a "general";
                "constraints" := py_or c "concise, friendly";
                "plan_json" := model_dump_json p;
                "research_summary" := summary ]})
          (invoke Assets (producer_llm svc) Valid
             {[ "goal" := g; "audience" := py_or a "general";
                "constraints" := py_or c "concise, friendly" +:+ " STRICT JSON ONLY.";
                "plan_json" := model_dump_json p;
                "research_summary" := summary ]})
          (add_entered Assets w)
    | Raise e => (Raise e, add_entered Assets w)
    end.
Proof.
  unfold make_assets. unfold mbind at 1. unfold M_bind. simpl.
  unfold mbind, M_bind, outcome.
  destruct (research_summary_of repr r) as [summary|e]; reflexivity.
Qed.

(** C4: the Plan stage and the Assets stage retry once.  When the first
    request is answered off-schema and the second with a valid document, the
    stage returns that document after exactly two outbound calls; when both
    are answered off-schema, the stage raises the second validation error,
    again after exactly two calls; the payload of the second call is that of
    the first with " STRICT JSON ONLY." appended to its constraints.  For
    the Assets stage the first call exists once the grounding summary has
    been built. *)
Theorem retry_once_bound (g : string) (a c : option string) (p : PlanOut)
    (r : option ResearchOut) (summary : string) (w : World) :
  let n := length (calls w) in
  let plan1 : gmap string string :=
    {[ "goal" := g; "audience" := py_or a "general";
       "constraints" := py_or c "keep budget low" ]} in
  let plan2 : gmap string string :=
    <[ "constraints" := py_or c "keep budget low" +:+ " STRICT JSON ONLY." ]> plan1 in
  let assets1 : gmap string string :=
    {[ "goal" := g; "audience" := py_or a "general";
       "constraints" := py_or c "concise, friendly";
       "plan_json" := model_dump_json p; "research_summary" := summary ]} in
  let assets2 : gmap string string :=
    <[ "constraints" := py_or c "concise, friendly" +:+ " STRICT JSON ONLY." ]> assets1 in
  let planned := make_plan svc g a c w in
  let produced := make_assets svc repr model_dump_json g a c p r w in
  (∀ e1 d,
     answer validate_PlanOut (planner_llm svc n plan1) = Raise (ValidationError e1) ->
     answer validate_PlanOut (planner_llm svc (S n) plan2) = Ok d ->
     planned.1 = Ok d ∧ calls planned.2 = calls w ++ [(Plan, plan1); (Plan, plan2)]) ∧
  (∀ e1 e2,
     answer validate_PlanOut (planner_llm svc n plan1) = Raise (ValidationError e1) ->
     answer validate_PlanOut (planner_llm svc (S n) plan2) = Raise (ValidationError e2) ->
     planned.1 = Raise (ValidationError e2) ∧
     calls planned.2 = calls w ++ [(Plan, plan1); (Plan, plan2)]) ∧
  (research_summary_of repr r = Ok summary ->
   (∀ e1 d,
      answer Valid (producer_llm svc n assets1) = Raise (ValidationError e1) ->
      answer Valid (producer_llm svc (S n) assets2) = Ok d ->
      produced.1 = Ok d ∧
      calls produced.2 = calls w ++ [(Assets, assets1); (Assets, assets2)]) ∧
   (∀ e1 e2,
      answer Valid (producer_llm svc n assets1) = Raise (ValidationError e1) ->
      answer Valid (producer_llm svc (S n) assets2) = Raise (ValidationError e2) ->
      produced.1 = Raise (ValidationError e2) ∧
      calls produced.2 = calls w ++ [(Assets, assets1); (Assets, assets2)])).
Proof.
  intros n plan1 plan2 assets1 assets2 planned produced.
  assert (Hplanned : planned
    = match answer validate_PlanOut (planner_llm svc n plan1) with
      | Raise (ValidationError _) =>
          (answer validate_PlanOut (planner_llm svc (S n) plan2),
           add_call Plan plan2 (add_call Plan plan1 (add_entered Plan w)))
      | o => (o, add_call Plan plan1 (add_entered Plan w))
      end).
  { subst planned. rewrite make_plan_eq, retry_eq. reflexivity. }
  split; [|split].
  - intros e1 d H1 H2. rewrite Hplanned, H1, H2. simpl.
    split; [done|]. by rewrite <- (assoc_L (++)).
  - intros e1 e2 H1 H2. rewrite Hplanned, H1, H2. simpl.
    split; [done|]. by rewrite <- (assoc_L (++)).
  - intros Hsum.
    assert (Hproduced : produced
      = match answer Valid (producer_llm svc n assets1) with
        | Raise (ValidationError _) =>
            (answer Valid (producer_llm svc (S n) assets2),
             add_call Assets assets2 (add_call Assets assets1 (add_entered Assets w)))
        | o => (o, add_call Assets assets1 (add_entered Assets w))
        end).
    { subst produced. rewrite make_assets_eq, Hsum, retry_eq. reflexivity. }
    split.
    + intros e1 d H1 H2. rewrite Hproduced, H1, H2. simpl.
      split; [done|]. by rewrite <- (assoc_L (++)).
    + intros e1 e2 H1 H2. rewrite Hproduced, H1, H2. simpl.
      split; [done|]. by rewrite <- (assoc_L (++)).
Qed.

End Stages.

Lemma retry_once_bound_witness :
  (make_plan svc_first_off_schema "g" None None world_fresh).1
    = Ok (as_PlanOut raw_plan_ok) ∧
  (∃ e2, (make_plan svc_off_schema "g" None None world_fresh).1
           = Raise (ValidationError e2)) ∧
  (make_assets svc_first_off_schema repr_quoted dump_titles "g" None None
     plan_doc None world_fresh).1 = Ok assets_doc ∧
  (make_assets svc_off_schema repr_quoted dump_titles "g" None None
     plan_doc None world_fresh).1 = Raise (ValidationError []).
Proof.
  destruct (retry_once_bound svc_first_off_schema repr_quoted dump_titles
              "g" None None plan_doc None "" world_fresh) as (Hplan & _ & Hassets).
  destruct (retry_once_bound svc_off_schema repr_quoted dump_titles
              "g" None None plan_doc None "" world_fresh) as (_ & Hplan' & Hassets').
  destruct (Hassets eq_refl) as [Ha _].
  destruct (Hassets' eq_refl) as [_ Ha'].
  split; [|split; [|split]].
  - eapply Hplan; reflexivity.
  - eexists. eapply Hplan'; reflexivity.
  - eapply Ha; reflexivity.
  - eapply Ha'; reflexivity.
Defined.

(** C2, on the code: [make_research] issues its one request and lets the
    validation error through.  With a service that answers the first request
    off-schema and would answer a second one with a valid document, the
    stage raises after a single call whose constraints carry no added
    directive. *)
Theorem make_research_does_not_retry :
  let sent : gmap string string :=
    {[ "goal" := "Launch a podcast in 2 weeks";
       "audience" := "aspiring CS students";
       "constraints" := "low budget" ]} in
  let out := make_research svc_first_off_schema "Launch a podcast in 2 weeks"
               "aspiring CS students" "low budget" world_fresh in
  out.1 = Raise (ValidationError []) ∧
  calls out.2 = [(Research, sent)] ∧
  research_llm svc_first_off_schema 1
    (<[ "constraints" := "low budget STRICT JSON ONLY." ]> sent)
    = Structured research_doc.
Proof. repeat split. Qed.

(** C8, on the code: [make_research] sends an empty audience and empty
    constraints as they are, where [make_plan] on the same arguments sends
    its defaults. *)
Theorem make_research_sends_empty_fields :
  calls (make_research svc_ok "Launch a podcast in 2 weeks" "" "" world_fresh).2
    = [(Research, {[ "goal" := "Launch a podcast in 2 weeks";
                     "audience" := ""; "constraints" := "" ]})] ∧
  calls (make_plan svc_ok "Launch a podcast in 2 weeks" (Some "") (Some "") world_fresh).2
    = [(Plan, {[ "goal" := "Launch a podcast in 2 weeks";
                 "audience" := "general"; "constraints" := "keep budget low" ]})].
Proof. split; reflexivity. Qed.

(** ** The grounding summary *)

Section Grounding.

Variable svc : Service.
Variable repr : string -> string.
Variable model_dump_json : PlanOut -> string.

(** The comprehension over [r['risk']] succeeds exactly when each item has
    the key, and then lists the values in order. *)
Lemma comprehension_getitem (k : string) (l : list (gmap string string))
    (vs : list string) :
  comprehension (getitem k) l = Ok vs ↔ (fun d => d !! k) <$> l = Some <$> vs.
Proof.
  revert vs. induction l as [|d l IH]; intros vs; simpl.
  - unfold mret, Outcome_ret. split.
    + intros [= <-]. reflexivity.
    + destruct vs; [reflexivity|discriminate].
  - unfold mbind, Outcome_bind, mret, Outcome_ret.
    unfold getitem at 1. destruct (d !! k) as [v|] eqn:Hd.
    + destruct (comprehension (getitem k) l) as [ys|e] eqn:Hc.
      * split.
        -- intros [= <-]. simpl. f_equal. by apply (IH ys).
        -- destruct vs as [|v' vs]; [discriminate|]. simpl.
           intros [= -> Hvs]. apply IH in Hvs. congruence.
      * split; [discriminate|].
        destruct vs as [|v' vs]; [discriminate|]. simpl.
        intros [= -> Hvs]. apply IH in Hvs. congruence.
    + split; [discriminate|]. destruct vs; discriminate.
Qed.

Lemma comprehension_getitem_missing (k : string) (l : list (gmap string string)) :
  Exists (fun d => d !! k = None) l ->
  comprehension (getitem k) l = Raise (KeyError k).
Proof.
  induction 1 as [d l Hd|d l _ IH]; simpl; unfold mbind, Outcome_bind;
    unfold getitem at 1.
  - by rewrite Hd.
  - destruct (d !! k); [|done]. by rewrite IH.
Qed.

(** A risk item without a ["risk"] key among the first two stops the stage
    before any request is made. *)
Lemma make_assets_key_error (g : string) (a c : option string) (p : PlanOut)
    (r : ResearchOut) (w : World) :
  Exists (fun d => d !! "risk" = None) (take 2 (risk_items (research_risks r))) ->
  make_assets svc repr model_dump_json g a c p (Some r) w
  = (Raise (KeyError "risk"), add_entered Assets w).
Proof.
  intros H. rewrite make_assets_eq. unfold research_summary_of.
  rewrite (comprehension_getitem_missing _ _ H). reflexivity.
Qed.

Lemma calls_since_app (w w' : World) (new : list (Stage * gmap string string)) :
  calls w' = calls w ++ new -> calls_since w w' = new.
Proof. unfold calls_since. intros ->. by rewrite drop_app_length. Qed.

Lemma entered_since_app (w w' : World) (new : list Stage) :
  entered w' = entered w ++ new -> entered_since w w' = new.
Proof. unfold entered_since. intros ->. by rewrite drop_app_length. Qed.

(** The requests of one run of [make_assets], given the summary. *)
Lemma make_assets_calls (g : string) (a c : option string) (p : PlanOut)
    (r : option ResearchOut) (summary : string) (w : World) :
  research_summary_of repr r = Ok summary ->
  ∃ new, calls (make_assets svc repr model_dump_json g a c p r w).2 = calls w ++ new ∧
         new ≠ [] ∧
         Forall (fun call => call.1 = Assets ∧
                             call.2 !! "research_summary" = Some summary) new.
Proof.
  intros Hsum. rewrite make_assets_eq, Hsum, retry_eq.
  destruct (answer Valid (producer_llm svc _ _)) as [d|[errs|k|msg]]; simpl.
  2: { eexists [_; _]. rewrite <- (assoc_L (++)). split; [done|]. split; [done|].
       repeat constructor. }
  all: eexists [_]; split; [done|]; split; [done|]; repeat constructor.
Qed.


End Grounding.


(** ** The handlers of app.py *)

Section Handlers.

Variable svc : Service.
Variable repr : string -> string.
Variable model_dump_json : PlanOut -> string.

Ltac step_handler :=
  unfold run_research, run_plan, run_assets, run_all_research, run_all_plan,
    run_all_assets, try_except, stage, st_show, set_research, set_plan,
    set_assets, set_edit_mode, on_session, modify, gets;
  unfold mbind, M_bind, mret, M_ret; cbv beta; cbn [world session_state fst snd].

Ltac not_entered :=
  let Hin := fresh "Hin" in
  simpl; intros Hin;
  repeat (apply elem_of_cons in Hin as [Hin|Hin]; [discriminate|]);
  by apply elem_of_nil in Hin.

(** *** What a stage function does to the world *)

Lemma make_research_world (g a c : string) (w : World) :
  let w' := (make_research svc g a c w).2 in
  entered w' = entered w ++ [Research] ∧
  ∃ new, calls w' = calls w ++ new ∧ Forall (fun call => call.1 = Research) new.
Proof.
  rewrite make_research_eq. destruct (research_client svc _) as [[]|e]; simpl.
  - split; [done|]. eexists [_]. split; [done|]. by repeat constructor.
  - split; [done|]. exists []. by rewrite (right_id_L [] (++)).
Qed.

Lemma make_plan_world (g : string) (a c : option string) (w : World) :
  let w' := (make_plan svc g a c w).2 in
  entered w' = entered w ++ [Plan] ∧
  ∃ new, calls w' = calls w ++ new ∧ Forall (fun call => call.1 = Plan) new.
Proof.
  rewrite make_plan_eq, retry_eq.
  destruct (answer validate_PlanOut (planner_llm svc _ _)) as [d|[errs|k|msg]]; simpl.
  2: { split; [done|]. eexists [_; _]. rewrite <- (assoc_L (++)).
       split; [done|]. by repeat constructor. }
  all: split; [done|]; eexists [_]; split; [done|]; by repeat constructor.
Qed.

Lemma make_assets_world (g : string) (a c : option string) (p : PlanOut)
    (r : option ResearchOut) (w : World) :
  let w' := (make_assets svc repr model_dump_json g a c p r w).2 in
  entered w' = entered w ++ [Assets] ∧
  ∃ new, calls w' = calls w ++ new ∧ Forall (fun call => call.1 = Assets) new.
Proof.
  rewrite make_assets_eq. destruct (research_summary_of repr r) as [summary|e].
  - rewrite retry_eq.
    destruct (answer Valid (producer_llm svc _ _)) as [d|[errs|k|msg]]; simpl.
    2: { split; [done|]. eexists [_; _]. rewrite <- (assoc_L (++)).
         split; [done|]. by repeat constructor. }
    all: split; [done|]; eexists [_]; split; [done|]; by repeat constructor.
  - simpl. split; [done|]. exists []. by rewrite (right_id_L [] (++)).
Qed.

(** *** What a handler does, by the outcome of its stage *)

Lemma run_research_cases (f : Form) (a : App) :
  let out := make_research svc (goal f) (audience f) (constraints f) (world a) in
  let a' := (run_research svc f a).2 in
  entered (world a') = entered out.2 ∧ calls (world a') = calls out.2 ∧
  session_state a' =
    match out.1 with
    | Ok r => store_research
                (set_research_risks (normalize_risks (research_risks r)) r)
                (session_state a)
    | Raise _ => session_state a
    end.
Proof.
  step_handler.
  by destruct (make_research svc (goal f) (audience f) (constraints f) (world a))
    as [[r|e] w1].
Qed.

Lemma run_all_research_cases (f : Form) (a : App) :
  let out := make_research svc (goal f) (audience f) (constraints f) (world a) in
  let a' := (run_all_research svc f a).2 in
  entered (world a') = entered out.2 ∧ calls (world a') = calls out.2 ∧
  session_state a' =
    match out.1 with
    | Ok r => store_research
                (set_research_risks (normalize_risks (research_risks r)) r)
                (session_state a)
    | Raise _ => session_state a
    end.
Proof.
  step_handler.
  by destruct (make_research svc (goal f) (audience f) (constraints f) (world a))
    as [[r|e] w1].
Qed.

Lemma run_plan_cases (f : Form) (a : App) :
  let out := make_plan svc (goal f) (Some (audience f)) (Some (constraints f)) (world a) in
  let a' := (run_plan svc f a).2 in
  entered (world a') = entered out.2 ∧ calls (world a') = calls out.2 ∧
  session_state a' =
    match out.1 with
    | Ok p => store_edit_mode true
                (store_plan (set_plan_risks (normalize_risks (plan_risks p)) p)
                   (session_state a))
    | Raise _ => session_state a
    end.
Proof.
  step_handler.
  by destruct (make_plan svc (goal f) (Some (audience f)) (Some (constraints f)) (world a))
    as [[p|e] w1].
Qed.

Lemma run_all_plan_cases (f : Form) (a : App) :
  let out := make_plan svc (goal f) (Some (audience f)) (Some (constraints f)) (world a) in
  let a' := (run_all_plan svc f a).2 in
  match research (session_state a) with
  | None => a' = a
  | Some _ =>
      entered (world a') = entered out.2 ∧ calls (world a') = calls out.2 ∧
      session_state a' =
        match out.1 with
        | Ok p => store_plan (set_plan_risks (normalize_risks (plan_risks p)) p)
                    (session_state a)
        | Raise _ => session_state a
        end
  end.
Proof.
  step_handler. destruct (research (session_state a)); [|done].
  by destruct (make_plan svc (goal f) (Some (audience f)) (Some (constraints f)) (world a))
    as [[p|e] w1].
Qed.

Lemma run_assets_cases (f : Form) (a : App) :
  let a' := (run_assets svc repr model_dump_json f a).2 in
  match plan (session_state a) with
  | None => a' = {| session_state := session_state a;
                    world := add_shown (warning "Run planning first.") (world a) |}
  | Some p =>
      let out := make_assets svc repr model_dump_json (goal f) (Some (audience f))
                   (Some (constraints f)) p (research (session_state a)) (world a) in
      entered (world a') = entered out.2 ∧ calls (world a') = calls out.2 ∧
      session_state a' =
        match out.1 with
        | Ok x => store_assets x (session_state a)
        | Raise _ => session_state a
        end
  end.
Proof.
  step_handler. destruct (plan (session_state a)) as [p|]; [|done].
  cbn [world session_state fst snd].
  by destruct (make_assets svc repr model_dump_json (goal f) (Some (audience f))
                 (Some (constraints f)) p (research (session_state a)) (world a))
    as [[x|e] w1].
Qed.

Lemma run_all_assets_cases (f : Form) (a : App) :
  let a' := (run_all_assets svc repr model_dump_json f a).2 in
  match plan (session_state a) with
  | None => a' = a
  | Some p =>
      let out := make_assets svc repr model_dump_json (goal f) (Some (audience f))
                   (Some (constraints f)) p (research (session_state a)) (world a) in
      entered (world a') = entered out.2 ∧ calls (world a') = calls out.2 ∧
      session_state a' =
        match out.1 with
        | Ok x => store_assets x (session_state a)
        | Raise _ => session_state a
        end
  end.
Proof.
  step_handler. destruct (plan (session_state a)) as [p|]; [|done].
  cbn [world session_state fst snd].
  by destruct (make_assets svc repr model_dump_json (goal f) (Some (audience f))
                 (Some (constraints f)) p (research (session_state a)) (world a))
    as [[x|e] w1].
Qed.

Lemma is_raise_true {A S} (r : Outcome A * S) :
  is_raise r = true -> ∃ e, r.1 = Raise e.
Proof. unfold is_raise. destruct r.1; [discriminate|eauto]. Qed.

Lemma is_raise_false {A S} (r : Outcome A * S) :
  is_raise r = false -> ∃ x, r.1 = Ok x.
Proof. unfold is_raise. destruct r.1; [eauto|discriminate]. Qed.

Lemma slot_store_research (st : Stage) (r : ResearchOut) (s : Session) :
  st ≠ Research -> slot st (store_research r s) = slot st s.
Proof. by destruct st. Qed.

Lemma slot_store_plan (st : Stage) (p : PlanOut) (s : Session) :
  st ≠ Plan -> slot st (store_plan p s) = slot st s.
Proof. by destruct st. Qed.

Lemma slot_store_assets (st : Stage) (x : AssetsOut) (s : Session) :
  st ≠ Assets -> slot st (store_assets x s) = slot st s.
Proof. by destruct st. Qed.

Lemma slot_store_edit_mode (st : Stage) (b : bool) (s : Session) :
  slot st (store_edit_mode b s) = slot st s.
Proof. by destruct st. Qed.

(** A successful Assets button stores what the stage returned. *)
Lemma run_assets_stores (f : Form) (a : App) (p : PlanOut) (x : AssetsOut) (w1 : World) :
  plan (session_state a) = Some p ->
  make_assets svc repr model_dump_json (goal f) (Some (audience f))
    (Some (constraints f)) p (research (session_state a)) (world a) = (Ok x, w1) ->
  session_state (run_assets svc repr model_dump_json f a).2
  = store_assets x (session_state a).
Proof.
  intros Hp Hout. pose proof (run_assets_cases f a) as H. cbv zeta in H.
  rewrite Hp in H. destruct H as (_ & _ & ->). by rewrite Hout.
Qed.

(** C6: the Assets button pressed while the store holds no plan shows the
    warning and does nothing else: no stage is entered, no outbound call is
    made, the store is as it was. *)
Theorem run_assets_without_plan_refused (f : Form) (a : App) :
  plan (session_state a) = None ->
  let a' := (run_assets svc repr model_dump_json f a).2 in
  shown (world a') = shown (world a) ++ [warning "Run planning first."] ∧
  calls (world a') = calls (world a) ∧
  entered (world a') = entered (world a) ∧
  session_state a' = session_state a.
Proof.
  intros Hplan a'. pose proof (run_assets_cases f a) as H.
  cbv zeta in H. rewrite Hplan in H. subst a'. by rewrite H.
Qed.

(** C7: when the call a handler makes for its stage raises, whatever the
    exception, the handler leaves the session store exactly as it found it;
    this holds for the three single-stage buttons and for the three blocks of
    Run all. *)
Theorem failed_stage_keeps_session (m : Mode) (st : Stage) (f : Form) (a : App) :
  stage_raises svc repr model_dump_json st f (session_state a) (world a) = true ->
  session_state (handler svc repr model_dump_json m st f a).2 = session_state a.
Proof.
  intros Hraise. destruct st; simpl in Hraise.
  - apply is_raise_true in Hraise as [e He]. destruct m; simpl.
    + destruct (run_research_cases f a) as (_ & _ & ->). by rewrite He.
    + destruct (run_all_research_cases f a) as (_ & _ & ->). by rewrite He.
  - apply is_raise_true in Hraise as [e He]. destruct m; simpl.
    + destruct (run_plan_cases f a) as (_ & _ & ->). by rewrite He.
    + pose proof (run_all_plan_cases f a) as H. cbv zeta in H.
      destruct (research (session_state a)).
      * destruct H as (_ & _ & ->). by rewrite He.
      * by rewrite H.
  - destruct (plan (session_state a)) as [p|] eqn:Hp; [|discriminate].
    apply is_raise_true in Hraise as [e He]. destruct m; simpl.
    + pose proof (run_assets_cases f a) as H. cbv zeta in H. rewrite Hp in H.
      destruct H as (_ & _ & ->). by rewrite He.
    + pose proof (run_all_assets_cases f a) as H. cbv zeta in H. rewrite Hp in H.
      destruct H as (_ & _ & ->). by rewrite He.
Qed.

(** C10: a single-stage button touches no slot but its own, whether its
    stage succeeds or not, and enters and calls no stage but its own; so a
    plan produced again leaves the stored assets as they were, with no
    request made for them. *)
Theorem single_stage_writes_own_slot (st st' : Stage) (f : Form) (a : App) :
  st' ≠ st ->
  let a' := (handler svc repr model_dump_json SingleStage st f a).2 in
  slot st' (session_state a') = slot st' (session_state a) ∧
  Forall (fun call => call.1 = st) (calls_since (world a) (world a')) ∧
  Forall (fun entry => entry = st) (entered_since (world a) (world a')).
Proof.
  intros Hne a'. subst a'. destruct st; simpl.
  - destruct (run_research_cases f a) as (He & Hc & ->).
    destruct (make_research_world (goal f) (audience f) (constraints f) (world a))
      as (He' & new & Hc' & Hall).
    rewrite He' in He. rewrite Hc' in Hc.
    rewrite (calls_since_app _ _ _ Hc), (entered_since_app _ _ _ He).
    split; [|split; [done|by repeat constructor]].
    destruct (_.1); [by apply slot_store_research|done].
  - destruct (run_plan_cases f a) as (He & Hc & ->).
    destruct (make_plan_world (goal f) (Some (audience f)) (Some (constraints f)) (world a))
      as (He' & new & Hc' & Hall).
    rewrite He' in He. rewrite Hc' in Hc.
    rewrite (calls_since_app _ _ _ Hc), (entered_since_app _ _ _ He).
    split; [|split; [done|by repeat constructor]].
    destruct (_.1); [|done].
    rewrite slot_store_edit_mode. by apply slot_store_plan.
  - pose proof (run_assets_cases f a) as H. cbv zeta in H.
    destruct (plan (session_state a)) as [p|].
    + destruct H as (He & Hc & ->).
      destruct (make_assets_world (goal f) (Some (audience f)) (Some (constraints f))
                  p (research (session_state a)) (world a))
        as (He' & new & Hc' & Hall).
      rewrite He' in He. rewrite Hc' in Hc.
      rewrite (calls_since_app _ _ _ Hc), (entered_since_app _ _ _ He).
      split; [|split; [done|by repeat constructor]].
      destruct (_.1); [by apply slot_store_assets|done].
    + rewrite H. simpl. unfold calls_since, entered_since. simpl.
      rewrite !drop_all. by repeat split.
Qed.

(** C5: normalization turns a risks mapping into the list of its
    [{risk, mitigation}] records in the mapping's iteration order and leaves
    a risks list as it is; and the document that the Research and Plan
    handlers, in both entry modes, hold in the store after a stage call that
    returned is the returned document with its risks in that list form:
    field by field, every other field as returned. *)
Theorem risk_normalization_shape_invariant :
  (∀ kvs : list (string * string),
     normalize_risks (RisksDict kvs)
     = RisksList ((fun kv => ({[ "risk" := kv.1; "mitigation" := kv.2 ]}
                                : gmap string string)) <$> kvs)) ∧
  (∀ items, normalize_risks (RisksList items) = RisksList items) ∧
  (∀ m f a r w1,
     make_research svc (goal f) (audience f) (constraints f) (world a) = (Ok r, w1) ->
     research (session_state (handler svc repr model_dump_json m Research f a).2)
     = Some {| targets := targets r;
               insights := insights r;
               research_risks :=
                 match research_risks r with
                 | RisksDict kvs =>
                     RisksList ((fun kv => ({[ "risk" := kv.1; "mitigation" := kv.2 ]}
                                              : gmap string string)) <$> kvs)
                 | RisksList items => RisksList items
                 end;
               references := references r |}) ∧
  (∀ m f a p w1,
     make_plan svc (goal f) (Some (audience f)) (Some (constraints f)) (world a)
       = (Ok p, w1) ->
     (m = RunAll -> is_Some (research (session_state a))) ->
     plan (session_state (handler svc repr model_dump_json m Plan f a).2)
     = Some {| milestones := milestones p;
               success_metrics := success_metrics p;
               plan_risks :=
                 match plan_risks p with
                 | RisksDict kvs =>
                     RisksList ((fun kv => ({[ "risk" := kv.1; "mitigation" := kv.2 ]}
                                              : gmap string string)) <$> kvs)
                 | RisksList items => RisksList items
                 end |}).
Proof.
  split; [done|]. split; [done|]. split.
  - intros m f a r w1 Hout.
    assert (Hstored : research (session_state
                                  (handler svc repr model_dump_json m Research f a).2)
                      = Some (set_research_risks (normalize_risks (research_risks r)) r)).
    { destruct m; simpl.
      + destruct (run_research_cases f a) as (_ & _ & ->). by rewrite Hout.
      + destruct (run_all_research_cases f a) as (_ & _ & ->). by rewrite Hout. }
    rewrite Hstored. reflexivity.
  - intros m f a p w1 Hout Hguard.
    assert (Hstored : plan (session_state
                              (handler svc repr model_dump_json m Plan f a).2)
                      = Some (set_plan_risks (normalize_risks (plan_risks p)) p)).
    { destruct m; simpl.
      + destruct (run_plan_cases f a) as (_ & _ & ->). by rewrite Hout.
      + pose proof (run_all_plan_cases f a) as H. cbv zeta in H.
        destruct (Hguard eq_refl) as [r0 Hr0]. rewrite Hr0 in H.
        destruct H as (_ & _ & ->). by rewrite Hout. }
    rewrite Hstored. reflexivity.
Qed.

(** *** Run all, block by block *)

Lemma run_all_eq (f : Form) (a : App) :
  (run_all svc repr model_dump_json f a).2
  = (run_all_assets svc repr model_dump_json f
       (run_all_plan svc f (run_all_research svc f a).2).2).2.
Proof.
  unfold run_all, mbind, M_bind.
  assert (H1 : ∀ x, (run_all_research svc f x).1 = Ok ()).
  { intros x. step_handler. by destruct (make_research _ _ _ _ _) as [[r|e] w1]. }
  assert (H2 : ∀ x, (run_all_plan svc f x).1 = Ok ()).
  { intros x. step_handler. destruct (research (session_state x)); [|done].
    by destruct (make_plan _ _ _ _ _) as [[p|e] w1]. }
  specialize (H1 a). destruct (run_all_research svc f a) as [[[]|e] a1];
    [|discriminate]. simpl.
  specialize (H2 a1). destruct (run_all_plan svc f a1) as [[[]|e] a2];
    [|discriminate]. reflexivity.
Qed.

(** C1, as the code has it: the gates of Run all read the session store.
    When Research fails and the store holds no research document, Plan is
    not entered in that run, and Assets is not entered either unless the
    store holds a plan; when Research succeeds, Plan fails and the store
    holds no plan, Assets is not entered. *)
Theorem run_all_short_circuit (f : Form) (a : App) :
  let a1 := (run_all_research svc f a).2 in
  let ran := entered_since (world a) (world (run_all svc repr model_dump_json f a).2) in
  (stage_raises svc repr model_dump_json Research f (session_state a) (world a) = true ->
   research (session_state a) = None ->
   (Plan ∉ ran) ∧ (plan (session_state a) = None -> Assets ∉ ran)) ∧
  (stage_raises svc repr model_dump_json Research f (session_state a) (world a) = false ->
   stage_raises svc repr model_dump_json Plan f (session_state a1) (world a1) = true ->
   plan (session_state a) = None ->
   Assets ∉ ran).
Proof.
  intros a1 ran. subst ran. rewrite run_all_eq. fold a1.
  destruct (run_all_research_cases f a) as (He1 & _ & Hs1). fold a1 in He1, Hs1.
  destruct (make_research_world (goal f) (audience f) (constraints f) (world a))
    as (He1' & _). rewrite He1' in He1. clear He1'.
  pose proof (run_all_plan_cases f a1) as H2. cbv zeta in H2.
  set (a2 := (run_all_plan svc f a1).2) in *.
  pose proof (run_all_assets_cases f a2) as H3. cbv zeta in H3.
  set (a3 := (run_all_assets svc repr model_dump_json f a2).2) in *.
  split.
  - intros Hraise Hres. simpl in Hraise.
    apply is_raise_true in Hraise as [e He]. rewrite He in Hs1.
    rewrite Hs1, Hres in H2. rewrite H2 in H3.
    destruct (plan (session_state a1)) as [p|] eqn:Hp.
    + destruct H3 as (He3 & _ & _).
      destruct (make_assets_world (goal f) (Some (audience f)) (Some (constraints f))
                  p (research (session_state a1)) (world a1)) as (He3' & _).
      rewrite He3', He1, <- (assoc_L (++)) in He3.
      rewrite (entered_since_app _ _ _ He3). split.
      * not_entered.
      * rewrite <- Hs1, Hp. discriminate.
    + rewrite H3, (entered_since_app _ _ _ He1). split.
      * not_entered.
      * intros _. not_entered.
  - intros Hok Hraise Hplan. simpl in Hok, Hraise.
    apply is_raise_false in Hok as [r Hr]. rewrite Hr in Hs1.
    apply is_raise_true in Hraise as [e He].
    rewrite Hs1 in H2. simpl in H2. destruct H2 as (He2 & _ & Hs2).
    rewrite He in Hs2.
    destruct (make_plan_world (goal f) (Some (audience f)) (Some (constraints f))
                (world a1)) as (He2' & _).
    rewrite He2', He1, <- (assoc_L (++)) in He2.
    assert (Hp2 : plan (session_state a2) = None) by (by rewrite Hs2).
    rewrite Hp2 in H3. rewrite H3, (entered_since_app _ _ _ He2).
    not_entered.
Qed.

End Handlers.

(** ** The statements at concrete inputs *)

Lemma run_assets_without_plan_refused_witness :
  let a' := (run_assets svc_ok repr_quoted dump_titles form_podcast app_fresh).2 in
  shown (world a') = [warning "Run planning first."] ∧
  calls (world a') = [] ∧
  entered (world a') = [] ∧
  session_state a' = session_empty.
Proof.
  apply (run_assets_without_plan_refused svc_ok repr_quoted dump_titles
           form_podcast app_fresh).
  reflexivity.
Defined.

Lemma failed_stage_keeps_session_witness :
  session_state (run_plan svc_planner_down form_podcast app_used).2 = session_full ∧
  session_state (run_all_assets svc_off_schema repr_quoted dump_titles
                   form_podcast app_used).2 = session_full.
Proof.
  split.
  - apply (failed_stage_keeps_session svc_planner_down repr_quoted dump_titles
             SingleStage Plan form_podcast app_used).
    reflexivity.
  - apply (failed_stage_keeps_session svc_off_schema repr_quoted dump_titles
             RunAll Assets form_podcast app_used).
    reflexivity.
Defined.

Lemma single_stage_writes_own_slot_witness :
  let a' := (run_plan svc_ok form_podcast app_used).2 in
  slot Assets (session_state a') = Some (AssetsDoc assets_doc) ∧
  Forall (fun call => call.1 = Plan) (calls_since world_fresh (world a')) ∧
  Forall (fun entry => entry = Plan) (entered_since world_fresh (world a')).
Proof.
  apply (single_stage_writes_own_slot svc_ok repr_quoted dump_titles
           Plan Assets form_podcast app_used).
  discriminate.
Defined.

Lemma risk_normalization_shape_invariant_witness :
  research (session_state (run_research svc_ok form_podcast app_fresh).2)
    = Some {| targets := [ {| name := "students"; why := "core audience" |};
                           {| name := "clubs"; why := "distribution" |} ];
              insights := [ "short episodes"; "weekly cadence"; "free hosting";
                            "guest speakers"; "campus radio" ];
              research_risks :=
                RisksList [ {[ "risk" := "no listeners"; "mitigation" := "promote early" ]};
                            {[ "risk" := "burnout"; "mitigation" := "batch record" ]};
                            {[ "risk" := "gear cost"; "mitigation" := "borrow" ]} ];
              references := [ {| ref_title := "Guide"; url := "https://example.org/a" |} ] |} ∧
  plan_risks <$> plan (session_state (run_all_plan svc_ok form_podcast app_used).2)
    = Some (RisksList [ {[ "risk" := "slip"; "mitigation" := "buffer week" ]} ]).
Proof.
  destruct (risk_normalization_shape_invariant svc_ok repr_quoted dump_titles)
    as (_ & _ & Hresearch & Hplan).
  split.
  - exact (Hresearch SingleStage form_podcast app_fresh _ _ eq_refl).
  - refine (f_equal (fmap plan_risks)
              (Hplan RunAll form_podcast app_used (as_PlanOut raw_plan_ok) _ eq_refl _)).
    intros _. by eexists.
Defined.

Lemma run_all_short_circuit_witness :
  let ran_research_down :=
    entered_since world_fresh
      (world (run_all svc_research_down repr_quoted dump_titles form_podcast app_fresh).2) in
  let ran_planner_down :=
    entered_since world_fresh
      (world (run_all svc_planner_down repr_quoted dump_titles form_podcast app_fresh).2) in
  (Plan ∉ ran_research_down) ∧ (Assets ∉ ran_research_down) ∧ (Assets ∉ ran_planner_down).
Proof.
  destruct (run_all_short_circuit svc_research_down repr_quoted dump_titles
              form_podcast app_fresh) as [Hdown _].
  destruct (Hdown eq_refl eq_refl) as [Hplan Hassets].
  destruct (run_all_short_circuit svc_planner_down repr_quoted dump_titles
              form_podcast app_fresh) as [_ Hplanner].
  split; [exact Hplan|].
  split; [exact (Hassets eq_refl)|].
  exact (Hplanner eq_refl eq_refl eq_refl).
Defined.

(** C1, as stated, fails once the store holds documents of an earlier run:
    Research fails, and Plan and Assets are entered all the same. *)
Lemma run_all_enters_plan_after_failed_research :
  stage_raises svc_research_down repr_quoted dump_titles Research form_podcast
    (session_state app_used) (world app_used) = true ∧
  entered_since (world app_used)
    (world (run_all svc_research_down repr_quoted dump_titles form_podcast app_used).2)
  = [Research; Plan; Assets].
Proof. split; reflexivity. Qed.

(** ** The requests of the stage functions *)

Section Requests.

Variable svc : Service.
Variable repr : string -> string.
Variable model_dump_json : PlanOut -> string.

Lemma make_plan_run (g : string) (a c : option string) (w : World) :
  make_plan svc g a c w
  = match answer validate_PlanOut
            (planner_llm svc (length (calls w)) (plan_request g a c)) with
    | Raise (ValidationError _) =>
        (answer validate_PlanOut
           (planner_llm svc (S (length (calls w)))
              (iadd "constraints" " STRICT JSON ONLY." (plan_request g a c))),
         add_call Plan (iadd "constraints" " STRICT JSON ONLY." (plan_request g a c))
           (add_call Plan (plan_request g a c) (add_entered Plan w)))
    | o => (o, add_call Plan (plan_request g a c) (add_entered Plan w))
    end.
Proof.
  unfold make_plan, planner_chain, enter, modify. unfold mbind at 1, M_bind at 1.
  cbv zeta. rewrite retry_eq. reflexivity.
Qed.

Lemma make_assets_run (g : string) (a c : option string) (p : PlanOut)
    (r : option ResearchOut) (w : World) :
  make_assets svc repr model_dump_json g a c p r w
  = match research_summary_of repr r with
    | Raise e => (Raise e, add_entered Assets w)
    | Ok summary =>
        let first := assets_request g a c (model_dump_json p) summary in
        match answer Valid (producer_llm svc (length (calls w)) first) with
        | Raise (ValidationError _) =>
            (answer Valid
               (producer_llm svc (S (length (calls w)))
                  (iadd "constraints" " STRICT JSON ONLY." first)),
             add_call Assets (iadd "constraints" " STRICT JSON ONLY." first)
               (add_call Assets first (add_entered Assets w)))
        | o => (o, add_call Assets first (add_entered Assets w))
        end
    end.
Proof.
  unfold make_assets, producer_chain, enter, modify, outcome.
  unfold mbind at 1, M_bind at 1. unfold mbind at 1, M_bind at 1.
  destruct (research_summary_of repr r) as [summary|e]; [|reflexivity].
  cbv zeta. rewrite retry_eq. reflexivity.
Qed.


Lemma py_or_filled (x : option string) (d : string) : d ≠ "" -> py_or x d ≠ "".
Proof. intros Hd. by destruct x as [[|ch s]|]. Qed.

Lemma py_or_given (s d : string) : s ≠ "" -> py_or (Some s) d = s.
Proof. by destruct s. Qed.

Lemma append_filled (s t : string) : t ≠ "" -> s +:+ t ≠ "".
Proof. intros Ht. destruct s; [done|discriminate]. Qed.

Lemma append_empty (s : string) : s +:+ "" = s.
Proof.
  induction s as [|ch s IH]; [done|].
  change (String ch (s +:+ "") = String ch s). by f_equal.
Qed.

Lemma calls_since_one (st st1 : Stage) (p1 : gmap string string) (w : World) :
  calls_since w (add_call st1 p1 (add_entered st w)) = [(st1, p1)].
Proof. by apply calls_since_app. Qed.

Lemma calls_since_two (st st1 st2 : Stage) (p1 p2 : gmap string string) (w : World) :
  calls_since w (add_call st2 p2 (add_call st1 p1 (add_entered st w)))
  = [(st1, p1); (st2, p2)].
Proof. apply calls_since_app. simpl. by rewrite <- (assoc_L (++)). Qed.

Lemma calls_since_none (st : Stage) (w : World) :
  calls_since w (add_entered st w) = [].
Proof. apply calls_since_app. simpl. by rewrite (right_id_L [] (++)). Qed.

(** X1: each stage function makes at most two requests.  [make_research]
    makes none when building its client raises and exactly one otherwise.
    [make_plan] makes one request, [make_assets] makes none when the summary
    cannot be built and one otherwise, and each of the two makes a second
    request exactly when the answer to the first is a validation failure. *)
Theorem stage_call_budget (g a c : string) (oa oc : option string) (p : PlanOut)
    (r : option ResearchOut) (w : World) :
  let n := length (calls w) in
  length (calls_since w (make_research svc g a c w).2)
    = match research_client svc n with
      | Raise _ => 0%nat
      | Ok _ => 1%nat
      end ∧
  length (calls_since w (make_plan svc g oa oc w).2)
    = (if is_ValidationError
            (answer validate_PlanOut (planner_llm svc n (plan_request g oa oc)))
       then 2%nat else 1%nat) ∧
  length (calls_since w (make_assets svc repr model_dump_json g oa oc p r w).2)
    = match research_summary_of repr r with
      | Raise _ => 0%nat
      | Ok summary =>
          if is_ValidationError
               (answer Valid
                  (producer_llm svc n
                     (assets_request g oa oc (model_dump_json p) summary)))
          then 2%nat else 1%nat
      end.
Proof.
  intros n. subst n. split; [|split].
  - rewrite make_research_eq. destruct (research_client svc _) as [[]|e]; simpl.
    + by rewrite calls_since_one.
    + by rewrite calls_since_none.
  - rewrite make_plan_run.
    destruct (answer validate_PlanOut _) as [d|[errs|k|msg]]; simpl.
    2: { by rewrite calls_since_two. }
    all: by rewrite calls_since_one.
  - rewrite make_assets_run. destruct (research_summary_of repr r) as [summary|e].
    + cbv zeta. destruct (answer Valid _) as [d|[errs|k|msg]]; simpl.
      2: { by rewrite calls_since_two. }
      all: by rewrite calls_since_one.
    + simpl. by rewrite calls_since_none.
Qed.

(** X2: a transport fault is not retried.  When the first request of
    [make_plan] or [make_assets] meets a fault, the stage raises that fault
    after this one request; the retry is for validation failures only. *)
Theorem transport_fault_not_retried (g : string) (a c : option string) (p : PlanOut)
    (r : option ResearchOut) (summary msg : string) (w : World) :
  (planner_llm svc (length (calls w)) (plan_request g a c) = Fault msg ->
   make_plan svc g a c w
   = (Raise (TransportError msg),
      add_call Plan (plan_request g a c) (add_entered Plan w))) ∧
  (research_summary_of repr r = Ok summary ->
   producer_llm svc (length (calls w))
     (assets_request g a c (model_dump_json p) summary) = Fault msg ->
   make_assets svc repr model_dump_json g a c p r w
   = (Raise (TransportError msg),
      add_call Assets (assets_request g a c (model_dump_json p) summary)
        (add_entered Assets w))).
Proof.
  split.
  - intros H. rewrite make_plan_run, H. reflexivity.
  - intros Hs H. rewrite make_assets_run, Hs. cbv zeta. rewrite H. reflexivity.
Qed.

Lemma py_or_default (x : option string) (d : string) :
  x = None ∨ x = Some "" -> py_or x d = d.
Proof. by intros [->| ->]. Qed.

(** X3: what the requests of [make_plan] and [make_assets] carry.  The
    stage sends one request or two.  Each carries the goal as given and an
    audience and constraints that are not empty: the audience as given, or
    "general" when none was given; in the first request the constraints as
    given, or the default of the stage when none were given ("keep budget
    low" for the plan, "concise, friendly" for the assets); in the second
    request those same constraints followed by " STRICT JSON ONLY.".
    [make_assets] sends nothing when the summary cannot be built. *)
Theorem requests_are_filled (g : string) (a c : option string) (p : PlanOut)
    (r : option ResearchOut) (w : World) :
  let request (d : string) (sent : string -> string)
      (call : Stage * gmap string string) :=
    call.2 !! "goal" = Some g ∧
    filled "audience" call.2 ∧ filled "constraints" call.2 ∧
    (∀ s, a = Some s -> s ≠ "" -> call.2 !! "audience" = Some s) ∧
    (a = None ∨ a = Some "" -> call.2 !! "audience" = Some "general") ∧
    (∀ s, c = Some s -> s ≠ "" -> call.2 !! "constraints" = Some (sent s)) ∧
    (c = None ∨ c = Some "" -> call.2 !! "constraints" = Some (sent d)) in
  let as_given (s : string) := s in
  let with_directive (s : string) := s +:+ " STRICT JSON ONLY." in
  let requests (d : string) (calls : list (Stage * gmap string string)) :=
    match calls with
    | [first] => request d as_given first
    | [first; second] => request d as_given first ∧ request d with_directive second
    | _ => False
    end in
  requests "keep budget low" (calls_since w (make_plan svc g a c w).2) ∧
  (calls_since w (make_assets svc repr model_dump_json g a c p r w).2 = [] ∨
   requests "concise, friendly"
     (calls_since w (make_assets svc repr model_dump_json g a c p r w).2)).
Proof.
  intros request as_given with_directive requests.
  assert (Hplan1 : request "keep budget low" as_given (Plan, plan_request g a c)).
  { split; [done|]. split; [|split; [|split; [|split; [|split]]]].
    - eexists. split; [reflexivity|]. by apply py_or_filled.
    - eexists. split; [reflexivity|]. by apply py_or_filled.
    - intros s -> Hs. simpl. unfold plan_request. by rewrite (py_or_given s _ Hs).
    - intros Ha. simpl. unfold plan_request. by rewrite (py_or_default a _ Ha).
    - intros s -> Hs. simpl. unfold plan_request. by rewrite (py_or_given s _ Hs).
    - intros Hc. simpl. unfold plan_request. by rewrite (py_or_default c _ Hc). }
  assert (Hplan2 : request "keep budget low" with_directive
                     (Plan, iadd "constraints" " STRICT JSON ONLY." (plan_request g a c))).
  { split; [done|]. split; [|split; [|split; [|split; [|split]]]].
    - eexists. split; [reflexivity|]. by apply py_or_filled.
    - eexists. split; [reflexivity|]. by apply append_filled.
    - intros s -> Hs. simpl. unfold plan_request. by rewrite (py_or_given s _ Hs).
    - intros Ha. simpl. unfold plan_request. by rewrite (py_or_default a _ Ha).
    - intros s -> Hs. simpl. unfold plan_request. by rewrite (py_or_given s _ Hs).
    - intros Hc. simpl. unfold plan_request. by rewrite (py_or_default c _ Hc). }
  split.
  - rewrite make_plan_run.
    destruct (answer validate_PlanOut _) as [d|[errs|k|msg]]; simpl.
    2: { rewrite calls_since_two. by split. }
    all: by rewrite calls_since_one.
  - rewrite make_assets_run. destruct (research_summary_of repr r) as [summary|e].
    2: { left. simpl. by rewrite calls_since_none. }
    right. cbv zeta.
    assert (H1 : request "concise, friendly" as_given
                   (Assets, assets_request g a c (model_dump_json p) summary)).
    { split; [done|]. split; [|split; [|split; [|split; [|split]]]].
      - eexists. split; [reflexivity|]. by apply py_or_filled.
      - eexists. split; [reflexivity|]. by apply py_or_filled.
      - intros s -> Hs. simpl. unfold assets_request. by rewrite (py_or_given s _ Hs).
      - intros Ha. simpl. unfold assets_request. by rewrite (py_or_default a _ Ha).
      - intros s -> Hs. simpl. unfold assets_request. by rewrite (py_or_given s _ Hs).
      - intros Hc. simpl. unfold assets_request. by rewrite (py_or_default c _ Hc). }
    assert (H2 : request "concise, friendly" with_directive
                   (Assets, iadd "constraints" " STRICT JSON ONLY."
                              (assets_request g a c (model_dump_json p) summary))).
    { split; [done|]. split; [|split; [|split; [|split; [|split]]]].
      - eexists. split; [reflexivity|]. by apply py_or_filled.
      - eexists. split; [reflexivity|]. by apply append_filled.
      - intros s -> Hs. simpl. unfold assets_request. by rewrite (py_or_given s _ Hs).
      - intros Ha. simpl. unfold assets_request. by rewrite (py_or_default a _ Ha).
      - intros s -> Hs. simpl. unfold assets_request. by rewrite (py_or_given s _ Hs).
      - intros Hc. simpl. unfold assets_request. by rewrite (py_or_default c _ Hc). }
    destruct (answer Valid _) as [d|[errs|k|msg]]; simpl.
    2: { rewrite calls_since_two. by split. }
    all: by rewrite calls_since_one.
Qed.

Lemma comprehension_risk_records (kvs : list (string * string)) :
  comprehension (getitem "risk") (risk_records kvs) = Ok (kvs.*1).
Proof.
  induction kvs as [|[k v] kvs IH]; [done|].
  change (comprehension (getitem "risk") (risk_records ((k, v) :: kvs)))
    with (y ← getitem "risk" (risk_record k v);
          ys ← comprehension (getitem "risk") (risk_records kvs);
          mret (y :: ys)).
  by rewrite IH.
Qed.

Lemma answer_not_KeyError {R A} (v : R -> Validated A) (reply : Reply R) (k : string) :
  answer v reply ≠ Raise (KeyError k).
Proof. destruct reply as [x| |]; simpl; [|done..]. by destruct (v x). Qed.


End Requests.

Lemma transport_fault_not_retried_witness :
  make_plan svc_down "g" None None world_fresh
    = (Raise (TransportError "rate limited"),
       add_call Plan (plan_request "g" None None) (add_entered Plan world_fresh)) ∧
  make_assets svc_down repr_quoted dump_titles "g" None None plan_doc None world_fresh
    = (Raise (TransportError "rate limited"),
       add_call Assets (assets_request "g" None None (dump_titles plan_doc) "")
         (add_entered Assets world_fresh)).
Proof.
  destruct (transport_fault_not_retried svc_down repr_quoted dump_titles
              "g" None None plan_doc None "" "rate limited" world_fresh) as [Hp Ha].
  split; [apply Hp; reflexivity|apply Ha; reflexivity].
Defined.

Lemma requests_are_filled_witness :
  (fun call => (call.2 !! "audience", call.2 !! "constraints"))
    <$> calls_since world_fresh
          (make_plan svc_first_off_schema "g" (Some "students") (Some "cheap")
             world_fresh).2
  = [ (Some "students", Some "cheap");
      (Some "students", Some "cheap STRICT JSON ONLY.") ].
Proof.
  destruct (requests_are_filled svc_first_off_schema repr_quoted dump_titles
              "g" (Some "students") (Some "cheap") plan_doc None world_fresh) as [H _].
  destruct (calls_since _ _) as [|first [|second [|third rest]]] eqn:Hsent; try done.
  destruct H as [(_ & _ & _ & Ha1 & _ & Hc1 & _) (_ & _ & _ & Ha2 & _ & Hc2 & _)].
  simpl.
  rewrite (Ha1 "students" eq_refl), (Hc1 "cheap" eq_refl) by discriminate.
  rewrite (Ha2 "students" eq_refl), (Hc2 "cheap" eq_refl) by discriminate.
  reflexivity.
Defined.


(** ** The page, press by press *)

Section Presses.

Variable svc : Service.
Variable repr : string -> string.
Variable model_dump_json : PlanOut -> string.

Ltac open_handler :=
  unfold run_research, run_plan, run_assets, run_all_research, run_all_plan,
    run_all_assets, save, clear_all, try_except, stage, st_show, set_research,
    set_plan, set_assets, set_edit_mode, on_session, modify, gets;
  unfold mbind, M_bind, mret, M_ret; cbv beta; cbn [world session_state fst snd].

(** The stage functions write nothing on the page. *)
Lemma make_research_shown (g a c : string) (w : World) :
  shown (make_research svc g a c w).2 = shown w.
Proof. rewrite make_research_eq. by destruct (research_client svc _) as [[]|e]. Qed.

Lemma make_plan_shown (g : string) (a c : option string) (w : World) :
  shown (make_plan svc g a c w).2 = shown w.
Proof.
  rewrite make_plan_run. by destruct (answer validate_PlanOut _) as [d|[errs|k|msg]].
Qed.

Lemma make_assets_shown (g : string) (a c : option string) (p : PlanOut)
    (r : option ResearchOut) (w : World) :
  shown (make_assets svc repr model_dump_json g a c p r w).2 = shown w.
Proof.
  rewrite make_assets_run. destruct (research_summary_of repr r) as [summary|e]; [|done].
  cbv zeta. by destruct (answer Valid _) as [d|[errs|k|msg]].
Qed.

Lemma shown_since_app (w w' : World) (new : list UiMsg) :
  shown w' = shown w ++ new -> shown_since w w' = new.
Proof. intros H. unfold shown_since. by rewrite H, drop_app_length. Qed.

(** Settles what a handler shows once the outcome of its stage call is
    known, from the fact that the call itself shows nothing. *)
Ltac told_by Hout Hshown :=
  rewrite Hout in Hshown |- *; cbn [fst snd world] in Hshown |- *;
  eexists; apply shown_since_app; simpl; rewrite Hshown;
  by rewrite <- ?(assoc_L (++)).

(** X5: what a handler shows, by the outcome of its stage call.  When the
    call returns a document the handler shows exactly one success message;
    when the call raises, it shows an error message followed by the text of
    that exception.  This holds for the three buttons and for the three
    blocks of Run all, the Plan block under its guard (a research document
    in the store) and the Assets handlers under theirs (a plan in the
    store).  A block of Run all whose guard fails shows nothing, and
    Produce assets without a plan shows its warning. *)
Theorem stage_outcome_is_shown (m : Mode) (f : Form) (a : App) :
  let told st :=
    shown_since (world a) (world (handler svc repr model_dump_json m st f a).2) in
  let research_call :=
    make_research svc (goal f) (audience f) (constraints f) (world a) in
  let plan_call :=
    make_plan svc (goal f) (Some (audience f)) (Some (constraints f)) (world a) in
  let assets_call p :=
    make_assets svc repr model_dump_json (goal f) (Some (audience f))
      (Some (constraints f)) p (research (session_state a)) (world a) in
  (∀ r w1, research_call = (Ok r, w1) -> ∃ msg, told Research = [success msg]) ∧
  (∀ e w1, research_call = (Raise e, w1) -> ∃ msg, told Research = [error msg; caption e]) ∧
  ((m = RunAll -> is_Some (research (session_state a))) ->
   (∀ p w1, plan_call = (Ok p, w1) -> ∃ msg, told Plan = [success msg]) ∧
   (∀ e w1, plan_call = (Raise e, w1) -> ∃ msg, told Plan = [error msg; caption e])) ∧
  (m = RunAll -> research (session_state a) = None -> told Plan = []) ∧
  (∀ p, plan (session_state a) = Some p ->
     (∀ x w1, assets_call p = (Ok x, w1) -> ∃ msg, told Assets = [success msg]) ∧
     (∀ e w1, assets_call p = (Raise e, w1) ->
        ∃ msg, told Assets = [error msg; caption e])) ∧
  (plan (session_state a) = None ->
   told Assets = match m with
                 | SingleStage => [warning "Run planning first."]
                 | RunAll => []
                 end).
Proof.
  intros told research_call plan_call assets_call.
  subst told research_call plan_call assets_call. cbv beta.
  pose proof (make_research_shown (goal f) (audience f) (constraints f) (world a))
    as Hres.
  pose proof (make_plan_shown (goal f) (Some (audience f)) (Some (constraints f))
                (world a)) as Hplan.
  split; [|split; [|split; [|split; [|split]]]].
  - intros r w1 Hout. destruct m; unfold handler; open_handler; told_by Hout Hres.
  - intros e w1 Hout. destruct m; unfold handler; open_handler; told_by Hout Hres.
  - intros Hguard. split.
    + intros p w1 Hout. destruct m; unfold handler; open_handler.
      * told_by Hout Hplan.
      * destruct (Hguard eq_refl) as [r0 ->]. told_by Hout Hplan.
    + intros e w1 Hout. destruct m; unfold handler; open_handler.
      * told_by Hout Hplan.
      * destruct (Hguard eq_refl) as [r0 ->]. told_by Hout Hplan.
  - intros -> Hnone. unfold handler. open_handler. rewrite Hnone.
    apply shown_since_app. by rewrite (right_id_L [] (++)).
  - intros p Hp.
    pose proof (make_assets_shown (goal f) (Some (audience f)) (Some (constraints f)) p
                  (research (session_state a)) (world a)) as Hassets.
    split.
    + intros x w1 Hout. destruct m; unfold handler; open_handler; rewrite Hp;
        told_by Hout Hassets.
    + intros e w1 Hout. destruct m; unfold handler; open_handler; rewrite Hp;
        told_by Hout Hassets.
  - intros Hnone. destruct m; unfold handler; open_handler; rewrite Hnone;
      apply shown_since_app; [done|by rewrite (right_id_L [] (++))].
Qed.

(** *** No failure of a stage escapes a handler *)

Lemma handler_returns (m : Mode) (st : Stage) (f : Form) (a : App) :
  (handler svc repr model_dump_json m st f a).1 = Ok ().
Proof.
  destruct m, st; unfold handler; open_handler.
  - by destruct (make_research _ _ _ _ _) as [[r|e] w1].
  - by destruct (make_plan _ _ _ _ _) as [[p|e] w1].
  - destruct (plan (session_state a)) as [p|]; [|done].
    by destruct (make_assets _ _ _ _ _ _ _ _ _) as [[x|e] w1].
  - by destruct (make_research _ _ _ _ _) as [[r|e] w1].
  - destruct (research (session_state a)) as [r|]; [|done].
    by destruct (make_plan _ _ _ _ _) as [[p|e] w1].
  - destruct (plan (session_state a)) as [p|]; [|done].
    by destruct (make_assets _ _ _ _ _ _ _ _ _) as [[x|e] w1].
Qed.

Lemma bind_returns {S A B} (m : M S A) (k : A -> M S B) (s : S) (x : A) :
  (m s).1 = Ok x -> (m ≫= k) s = k x (m s).2.
Proof. unfold mbind, M_bind. destruct (m s) as [[y|e] s']; simpl; congruence. Qed.

Lemma run_all_returns (f : Form) (a : App) :
  (run_all svc repr model_dump_json f a).1 = Ok ().
Proof.
  unfold run_all.
  rewrite (bind_returns _ _ _ _ (handler_returns RunAll Research f a)).
  rewrite (bind_returns _ _ _ _ (handler_returns RunAll Plan f _)).
  apply (handler_returns RunAll Assets).
Qed.

Lemma rerun_returns (b : Button) (f : Form) (a : App) :
  (rerun svc repr model_dump_json b f a).1 = Ok ().
Proof.
  destruct b; simpl.
  - apply (handler_returns SingleStage Research).
  - apply (handler_returns SingleStage Plan).
  - apply (handler_returns SingleStage Assets).
  - reflexivity.
  - apply run_all_returns.
  - open_handler. by destruct (plan (session_state a)).
Qed.

Lemma visit_cons (b : Button) (f : Form) (presses : list (Button * Form)) (a : App) :
  visit svc repr model_dump_json ((b, f) :: presses) a
  = visit svc repr model_dump_json presses (rerun svc repr model_dump_json b f a).2.
Proof. simpl. by rewrite (bind_returns _ _ _ _ (rerun_returns b f a)). Qed.

(** X6: no failure of a stage escapes the page.  Whatever the service
    answers, each run of the script returns normally, and so does every
    sequence of presses: a validation failure, a transport fault or a
    [KeyError] of a stage is caught by the handler that made the call. *)
Theorem no_press_raises (presses : list (Button * Form)) (a : App) :
  (visit svc repr model_dump_json presses a).1 = Ok ().
Proof.
  revert a. induction presses as [|[b f] presses IH]; intros a; [done|].
  rewrite visit_cons. apply IH.
Qed.


(** *** Run all, as a whole *)

Lemma run_all_research_entered (f : Form) (a : App) :
  entered (world (run_all_research svc f a).2) = entered (world a) ++ [Research].
Proof.
  destruct (run_all_research_cases svc f a) as (-> & _).
  apply make_research_world.
Qed.

Lemma run_all_plan_entered (f : Form) (a : App) :
  entered (world (run_all_plan svc f a).2)
  = entered (world a) ++ (if research (session_state a) is Some _ then [Plan] else []).
Proof.
  pose proof (run_all_plan_cases svc f a) as H. cbv zeta in H.
  destruct (research (session_state a)) as [r|].
  - destruct H as (-> & _). apply make_plan_world.
  - by rewrite H, (right_id_L [] (++)).
Qed.

Lemma run_all_assets_entered (f : Form) (a : App) :
  entered (world (run_all_assets svc repr model_dump_json f a).2)
  = entered (world a) ++ (if plan (session_state a) is Some _ then [Assets] else []).
Proof.
  pose proof (run_all_assets_cases svc repr model_dump_json f a) as H. cbv zeta in H.
  destruct (plan (session_state a)) as [p|].
  - destruct H as (-> & _). apply make_assets_world.
  - by rewrite H, (right_id_L [] (++)).
Qed.

Lemma run_all_entered (f : Form) (a : App) :
  let a1 := (run_all_research svc f a).2 in
  let a2 := (run_all_plan svc f a1).2 in
  entered (world (run_all svc repr model_dump_json f a).2)
  = entered (world a)
    ++ [Research]
    ++ (if research (session_state a1) is Some _ then [Plan] else [])
    ++ (if plan (session_state a2) is Some _ then [Assets] else []).
Proof.
  intros a1 a2. rewrite run_all_eq. fold a1. fold a2.
  rewrite run_all_assets_entered. unfold a2 at 1.
  rewrite run_all_plan_entered. unfold a1 at 1.
  rewrite run_all_research_entered.
  by rewrite <- !(assoc_L (++)).
Qed.

(** X7: the order of Run all.  One press enters Research first and exactly
    once, then Plan at most once, then Assets at most once, never in another
    order; Plan is entered exactly when the store holds a research document
    after the Research block, and Assets exactly when it holds a plan after
    the Plan block. *)
Theorem run_all_stage_order (f : Form) (a : App) :
  let a1 := (run_all_research svc f a).2 in
  let a2 := (run_all_plan svc f a1).2 in
  entered_since (world a) (world (run_all svc repr model_dump_json f a).2)
  = [Research]
    ++ (if research (session_state a1) is Some _ then [Plan] else [])
    ++ (if plan (session_state a2) is Some _ then [Assets] else []).
Proof. intros a1 a2. apply entered_since_app, run_all_entered. Qed.


Lemma raised_None {A S} (r : Outcome A * S) : raised r = None -> ∃ x, r.1 = Ok x.
Proof. unfold raised. destruct r.1 as [x|e]; [by exists x|done]. Qed.

Lemma normalize_risks_listed (r : Risks) : risks_listed (normalize_risks r).
Proof. by destruct r. Qed.

Lemma make_assets_requests (g : string) (a c : option string) (p : PlanOut)
    (r : option ResearchOut) (w : World) :
  let out := make_assets svc repr model_dump_json g a c p r w in
  raised out = None ->
  ∃ summary,
    research_summary_of repr r = Ok summary ∧
    calls_since w out.2 ≠ [] ∧
    Forall (fun call => call.1 = Assets ∧
                        call.2 !! "plan_json" = Some (model_dump_json p) ∧
                        call.2 !! "research_summary" = Some summary)
      (calls_since w out.2).
Proof.
  intros out. subst out. rewrite make_assets_run.
  destruct (research_summary_of repr r) as [summary|e]; [|done].
  intros _. exists summary. split; [done|]. cbv zeta.
  destruct (answer Valid _) as [d|[errs|k|msg]]; cbn [fst snd].
  2: { rewrite calls_since_two. split; [done|].
       apply Forall_cons_2; [done|]. apply Forall_cons_2; [done|]. apply Forall_nil_2. }
  all: rewrite calls_since_one; split; [done|];
    apply Forall_cons_2; [done|]; apply Forall_nil_2.
Qed.

(** X8: a Run all in which every stage call returns a document.  When the
    Research call returns [r], the Plan call then returns [p] and the Assets
    call then returns [x], the store holds exactly these: [r] and [p] with
    their risks in list form and every other field as returned, and [x];
    [edit_mode] is left as it was; the three stages were entered in order;
    and every request of the Assets stage carries the JSON of the plan just
    stored and the summary of the research just stored. *)
Theorem run_all_success (f : Form) (a : App) (r : ResearchOut) (p : PlanOut)
    (x : AssetsOut) (w1 w2 w3 : World) :
  let listed (risks : Risks) :=
    match risks with
    | RisksDict kvs =>
        RisksList ((fun kv => ({[ "risk" := kv.1; "mitigation" := kv.2 ]}
                                 : gmap string string)) <$> kvs)
    | RisksList items => RisksList items
    end in
  let r' := {| targets := targets r; insights := insights r;
               research_risks := listed (research_risks r);
               references := references r |} in
  let p' := {| milestones := milestones p; success_metrics := success_metrics p;
               plan_risks := listed (plan_risks p) |} in
  let a1 := (run_all_research svc f a).2 in
  let a2 := (run_all_plan svc f a1).2 in
  let a3 := (run_all svc repr model_dump_json f a).2 in
  make_research svc (goal f) (audience f) (constraints f) (world a) = (Ok r, w1) ->
  make_plan svc (goal f) (Some (audience f)) (Some (constraints f)) (world a1)
    = (Ok p, w2) ->
  make_assets svc repr model_dump_json (goal f) (Some (audience f))
    (Some (constraints f)) p' (Some r') (world a2) = (Ok x, w3) ->
  session_state a3 = {| research := Some r'; plan := Some p'; assets := Some x;
                        edit_mode := edit_mode (session_state a) |} ∧
  entered_since (world a) (world a3) = [Research; Plan; Assets] ∧
  ∃ summary,
    research_summary_of repr (Some r') = Ok summary ∧
    calls_since (world a2) (world a3) ≠ [] ∧
    Forall (fun call => call.1 = Assets ∧
                        call.2 !! "plan_json" = Some (model_dump_json p') ∧
                        call.2 !! "research_summary" = Some summary)
      (calls_since (world a2) (world a3)).
Proof.
  intros listed r' p' a1 a2 a3 H1 H2 H3.
  pose proof (entered_since_app _ _ _ (run_all_entered f a)) as Horder.
  cbv zeta in Horder. fold a1 a2 a3 in Horder.
  assert (Ha3 : a3 = (run_all_assets svc repr model_dump_json f a2).2)
    by apply run_all_eq.
  destruct (run_all_research_cases svc f a) as (_ & _ & Hs1). fold a1 in Hs1.
  rewrite H1 in Hs1. cbn [fst] in Hs1.
  change (set_research_risks (normalize_risks (research_risks r)) r) with r' in Hs1.
  assert (Hres : research (session_state a1) = Some r') by (by rewrite Hs1).
  pose proof (run_all_plan_cases svc f a1) as Hc2. cbv zeta in Hc2. fold a2 in Hc2.
  rewrite Hres in Hc2. destruct Hc2 as (_ & _ & Hs2).
  rewrite H2 in Hs2. cbn [fst] in Hs2.
  change (set_plan_risks (normalize_risks (plan_risks p)) p) with p' in Hs2.
  assert (Hplan : plan (session_state a2) = Some p') by (by rewrite Hs2).
  assert (Hres2 : research (session_state a2) = Some r') by (by rewrite Hs2).
  pose proof (run_all_assets_cases svc repr model_dump_json f a2) as Hc3.
  cbv zeta in Hc3. rewrite <- Ha3 in Hc3.
  rewrite Hplan, Hres2 in Hc3. destruct Hc3 as (_ & Hcalls & Hs3).
  assert (Hraised : raised (make_assets svc repr model_dump_json (goal f)
                              (Some (audience f)) (Some (constraints f)) p' (Some r')
                              (world a2)) = None) by (by rewrite H3).
  destruct (make_assets_requests _ _ _ _ _ _ Hraised) as (summary & Hsum & Hne & Hall).
  rewrite H3 in Hs3. cbn [fst] in Hs3.
  split; [|split].
  - rewrite Hs3, Hs2, Hs1. reflexivity.
  - rewrite Horder, Hres, Hplan. reflexivity.
  - exists summary. split; [exact Hsum|].
    unfold calls_since in *. by rewrite Hcalls.
Qed.


Lemma raised_Some {A S} (r : Outcome A * S) : raised r ≠ None -> ∃ e, r.1 = Raise e.
Proof. unfold raised. destruct r.1 as [x|e]; [done|by exists e]. Qed.

(** *** Reset *)


End Presses.

Lemma run_all_success_witness :
  session_state (run_all svc_ok repr_quoted dump_titles form_podcast app_fresh).2
  = {| research :=
         Some {| targets := targets research_doc; insights := insights research_doc;
                 research_risks :=
                   RisksList [ {[ "risk" := "no listeners"; "mitigation" := "promote early" ]};
                               {[ "risk" := "burnout"; "mitigation" := "batch record" ]};
                               {[ "risk" := "gear cost"; "mitigation" := "borrow" ]} ];
                 references := references research_doc |};
       plan :=
         Some {| milestones := milestones (as_PlanOut raw_plan_ok);
                 success_metrics := [ "100 downloads" ];
                 plan_risks :=
                   RisksList [ {[ "risk" := "slip"; "mitigation" := "buffer week" ]} ] |};
       assets := Some assets_doc;
       edit_mode := false |} ∧
  entered_since world_fresh
    (world (run_all svc_ok repr_quoted dump_titles form_podcast app_fresh).2)
  = [Research; Plan; Assets].
Proof.
  destruct (run_all_success svc_ok repr_quoted dump_titles form_podcast app_fresh
              research_doc (as_PlanOut raw_plan_ok) assets_doc _ _ _
              eq_refl eq_refl eq_refl) as (Hstore & Hentered & _).
  split; [exact Hstore|exact Hentered].
Defined.

Lemma stage_outcome_is_shown_witness :
  (∃ msg, shown_since world_fresh
            (world (run_research svc_ok form_podcast app_fresh).2) = [success msg]) ∧
  (∃ msg, shown_since world_fresh
            (world (run_plan svc_planner_down form_podcast app_fresh).2)
          = [error msg; caption (TransportError "rate limited")]).
Proof.
  destruct (stage_outcome_is_shown svc_ok repr_quoted dump_titles SingleStage
              form_podcast app_fresh) as (Hreturned & _).
  destruct (stage_outcome_is_shown svc_planner_down repr_quoted dump_titles SingleStage
              form_podcast app_fresh) as (_ & _ & Hplan & _).
  split.
  - exact (Hreturned _ _ eq_refl).
  - destruct Hplan as [_ Hraised]; [discriminate|].
    exact (Hraised _ _ eq_refl).
Defined.


(** ** The store along a visit *)

Lemma validate_PlanOut_efforts (raw : RawPlan) (p : PlanOut) :
  validate_PlanOut raw = Valid p -> plan_efforts_ok p.
Proof.
  unfold validate_PlanOut. intros H.
  destruct (validate_list_spec validate_Milestone as_Milestone
              (fun m => Forall effort_ok (raw_tasks m))
              validate_Milestone_ok validate_Milestone_bad (raw_milestones raw) 0%nat)
    as [Hok Hbad].
  destruct (decide (efforts_ok raw)) as [Hraw|Hraw].
  - rewrite (Hok Hraw) in H. injection H as <-.
    unfold plan_efforts_ok. simpl. apply Forall_fmap.
    eapply Forall_impl; [exact Hraw|]. intros m Hm. simpl.
    apply Forall_fmap. eapply Forall_impl; [exact Hm|]. by intros t Ht.
  - destruct (Hbad Hraw) as (errs & _ & Herrs). by rewrite Herrs in H.
Qed.

Lemma answer_PlanOut_efforts (reply : Reply RawPlan) (p : PlanOut) :
  answer validate_PlanOut reply = Ok p -> plan_efforts_ok p.
Proof.
  destruct reply as [raw|errs|msg]; simpl; [|done..].
  destruct (validate_PlanOut raw) as [p'|errs] eqn:Hv; [|done].
  intros [= <-]. by apply (validate_PlanOut_efforts raw).
Qed.

Section Visits.

Variable svc : Service.
Variable repr : string -> string.
Variable model_dump_json : PlanOut -> string.

Lemma make_plan_efforts (g : string) (a c : option string) (w : World) (p : PlanOut) :
  (make_plan svc g a c w).1 = Ok p -> plan_efforts_ok p.
Proof.
  rewrite make_plan_run.
  destruct (answer validate_PlanOut _) as [d|[errs|k|msg]] eqn:H1; simpl; try done.
  - intros [= <-]. by apply answer_PlanOut_efforts in H1.
  - apply answer_PlanOut_efforts.
Qed.

Lemma new_milestones_tasks (text_input : TextInput) (ms : list Milestone) (i : nat) :
  tasks <$> new_milestones text_input i ms = tasks <$> ms.
Proof.
  revert i. induction ms as [|m ms IH]; intros i; [done|].
  simpl. by rewrite IH.
Qed.

Lemma plan_efforts_ok_tasks (p q : PlanOut) :
  tasks <$> milestones q = tasks <$> milestones p ->
  plan_efforts_ok p -> plan_efforts_ok q.
Proof.
  unfold plan_efforts_ok. intros Heq Hp.
  apply (Forall_fmap tasks (fun ts => Forall (fun t => 1 ≤ effort_hrs t ≤ 12) ts)).
  rewrite Heq. by apply Forall_fmap.
Qed.


Lemma store_ok_research (r : ResearchOut) (s : Session) :
  store_ok s ->
  store_ok (store_research (set_research_risks (normalize_risks (research_risks r)) r) s).
Proof.
  intros (Ha & Hr & Hp). split; [exact Ha|]. split; [|exact Hp].
  intros r' [= <-]. simpl. by destruct (research_risks r).
Qed.

Lemma store_ok_plan (p : PlanOut) (s : Session) :
  plan_efforts_ok p -> store_ok s ->
  store_ok (store_plan (set_plan_risks (normalize_risks (plan_risks p)) p) s).
Proof.
  intros He (Ha & Hr & Hp). split; [by eexists|]. split; [exact Hr|].
  intros p' [= <-]. split; [|exact He]. simpl. by destruct (plan_risks p).
Qed.

Lemma store_ok_assets (x : AssetsOut) (s : Session) :
  is_Some (plan s) -> store_ok s -> store_ok (store_assets x s).
Proof. intros Hplan (Ha & Hr & Hp). split; [done|]. split; [exact Hr|exact Hp]. Qed.

Lemma store_ok_edit_mode (b : bool) (s : Session) :
  store_ok s -> store_ok (store_edit_mode b s).
Proof. intros (Ha & Hr & Hp). split; [exact Ha|]. split; [exact Hr|exact Hp]. Qed.

Lemma handler_store_ok (m : Mode) (st : Stage) (f : Form) (a : App) :
  store_ok (session_state a) ->
  store_ok (session_state (handler svc repr model_dump_json m st f a).2).
Proof.
  intros Hok. destruct m, st; unfold handler.
  - destruct (run_research_cases svc f a) as (_ & _ & ->).
    destruct (make_research _ _ _ _ _).1; [by apply store_ok_research|done].
  - destruct (run_plan_cases svc f a) as (_ & _ & ->).
    destruct (make_plan _ _ _ _ _).1 as [p|e] eqn:Hp; [|done].
    apply store_ok_edit_mode, store_ok_plan; [|done]. by apply make_plan_efforts in Hp.
  - pose proof (run_assets_cases svc repr model_dump_json f a) as H. cbv zeta in H.
    destruct (plan (session_state a)) as [p|] eqn:Hp; [|by rewrite H].
    destruct H as (_ & _ & ->).
    destruct (make_assets _ _ _ _ _ _ _ _ _).1; [|done].
    apply store_ok_assets; [by rewrite Hp|done].
  - destruct (run_all_research_cases svc f a) as (_ & _ & ->).
    destruct (make_research _ _ _ _ _).1; [by apply store_ok_research|done].
  - pose proof (run_all_plan_cases svc f a) as H. cbv zeta in H.
    destruct (research (session_state a)) as [r|]; [|by rewrite H].
    destruct H as (_ & _ & ->).
    destruct (make_plan _ _ _ _ _).1 as [p|e] eqn:Hp; [|done].
    apply store_ok_plan; [|done]. by apply make_plan_efforts in Hp.
  - pose proof (run_all_assets_cases svc repr model_dump_json f a) as H. cbv zeta in H.
    destruct (plan (session_state a)) as [p|] eqn:Hp; [|by rewrite H].
    destruct H as (_ & _ & ->).
    destruct (make_assets _ _ _ _ _ _ _ _ _).1; [|done].
    apply store_ok_assets; [by rewrite Hp|done].
Qed.

Lemma save_eq (text_input : TextInput) (a : App) :
  save text_input a
  = (Ok (),
     match plan (session_state a) with
     | Some p =>
         {| session_state :=
              store_plan (set_milestones (new_milestones text_input 0 (milestones p)) p)
                (session_state a);
            world := add_shown (success "Saved.") (world a) |}
     | None => a
     end).
Proof. unfold save, gets, mbind, M_bind. by destruct (plan (session_state a)). Qed.

Lemma rerun_store_ok (b : Button) (f : Form) (a : App) :
  store_ok (session_state a) ->
  store_ok (session_state (rerun svc repr model_dump_json b f a).2).
Proof.
  intros Hok. destruct b; simpl.
  - by apply (handler_store_ok SingleStage Research).
  - by apply (handler_store_ok SingleStage Plan).
  - by apply (handler_store_ok SingleStage Assets).
  - split; [by intros []|]. split; by intros ? [=].
  - rewrite run_all_eq.
    apply (handler_store_ok RunAll Assets), (handler_store_ok RunAll Plan),
      (handler_store_ok RunAll Research), Hok.
  - rewrite save_eq. simpl. destruct (plan (session_state a)) as [p|] eqn:Hp; [|done].
    destruct Hok as (Ha & Hr & Hpl). destruct (Hpl p Hp) as [Hrisks Heff].
    split; [by eexists|]. split; [exact Hr|].
    intros p' [= <-]. split; [exact Hrisks|].
    apply (plan_efforts_ok_tasks p); [|exact Heff]. apply new_milestones_tasks.
Qed.

Lemma visit_store_ok (presses : list (Button * Form)) (a : App) :
  store_ok (session_state a) ->
  store_ok (session_state (visit svc repr model_dump_json presses a).2).
Proof.
  revert a. induction presses as [|[b f] presses IH]; intros a Hok; [done|].
  rewrite visit_cons. by apply IH, rerun_store_ok.
Qed.

Lemma store_ok_buckets : store_ok session_buckets.
Proof. split; [by intros []|]. split; by intros ? [=]. Qed.

(** X10: assets never outlive their plan.  On every page a visit reaches
    from a new session, a store that holds assets holds a plan, so the
    downloads block, which reads the plan whenever assets are there, always
    finds one. *)
Theorem assets_imply_plan (presses : list (Button * Form)) (w : World) :
  let s := session_state
             (visit svc repr model_dump_json presses
                {| session_state := session_buckets; world := w |}).2 in
  is_Some (assets s) -> is_Some (plan s).
Proof. intros s. apply (visit_store_ok presses), store_ok_buckets. Qed.

(** X11: stored risks are in list form.  On every page a visit reaches
    from a new session, the research document and the plan in the store
    have their risks as a list of records, never as a mapping, whatever
    shape the service answered with. *)
Theorem stored_risks_are_listed (presses : list (Button * Form)) (w : World) :
  let s := session_state
             (visit svc repr model_dump_json presses
                {| session_state := session_buckets; world := w |}).2 in
  match research s with Some r => risks_listed (research_risks r) | None => True end ∧
  match plan s with Some p => risks_listed (plan_risks p) | None => True end.
Proof.
  intros s.
  destruct (visit_store_ok presses {| session_state := session_buckets; world := w |}
              store_ok_buckets) as (_ & Hr & Hp). fold s in Hr, Hp.
  split.
  - destruct (research s) as [r|]; [by apply Hr|done].
  - destruct (plan s) as [p|]; [by apply Hp|done].
Qed.

(** X12: the stored plan keeps the effort bound.  On every page a visit
    reaches from a new session, every task of the plan in the store has
    [effort_hrs] within 1..12: only validated plans are stored, and saving
    the edit form changes titles and due dates only. *)
Theorem stored_plan_efforts_bounded (presses : list (Button * Form)) (w : World) :
  let s := session_state
             (visit svc repr model_dump_json presses
                {| session_state := session_buckets; world := w |}).2 in
  match plan s with Some p => plan_efforts_ok p | None => True end.
Proof.
  intros s.
  destruct (visit_store_ok presses {| session_state := session_buckets; world := w |}
              store_ok_buckets) as (_ & _ & Hp). fold s in Hp.
  destruct (plan s) as [p|]; [by apply Hp|done].
Qed.


(** *** The plan edit form *)

Lemma new_milestones_lookup (text_input : TextInput) (ms : list Milestone) (j i : nat) :
  new_milestones text_input j ms !! i
  = (fun m => {| title := text_input "Title" (title m) ("title_" +:+ pretty (j + i)%nat);
                 due := text_input "Due (YYYY-MM-DD)" (due m)
                          ("due_" +:+ pretty (j + i)%nat);
                 tasks := tasks m |}) <$> ms !! i.
Proof.
  revert j i. induction ms as [|m ms IH]; intros j i; [done|].
  destruct i as [|i]; simpl.
  - by rewrite Nat.add_0_r.
  - rewrite IH. by rewrite Nat.add_succ_r.
Qed.

Lemma new_milestones_length (text_input : TextInput) (ms : list Milestone) (j : nat) :
  length (new_milestones text_input j ms) = length ms.
Proof. revert j. induction ms as [|m ms IH]; intros j; simpl; [done|]. by rewrite IH. Qed.

(** X13: Save changes rewrites titles and due dates and nothing else.  With
    a plan in the store, the saved plan has as many milestones as before,
    milestone [i] takes its title and due date from the widgets keyed
    [title_i] and [due_i] and keeps its tasks, the success metrics and risks
    are kept, the research document, the assets and [edit_mode] are kept,
    no stage is entered, no request is made and the page shows "Saved.". *)
Theorem save_changes_titles_and_dues_only (text_input : TextInput) (a : App) (p : PlanOut) :
  plan (session_state a) = Some p ->
  let a' := (save text_input a).2 in
  (∃ p', plan (session_state a') = Some p' ∧
         length (milestones p') = length (milestones p) ∧
         (∀ i m, milestones p !! i = Some m ->
            milestones p' !! i
            = Some {| title := text_input "Title" (title m) ("title_" +:+ pretty i);
                      due := text_input "Due (YYYY-MM-DD)" (due m) ("due_" +:+ pretty i);
                      tasks := tasks m |}) ∧
         success_metrics p' = success_metrics p ∧
         plan_risks p' = plan_risks p) ∧
  research (session_state a') = research (session_state a) ∧
  assets (session_state a') = assets (session_state a) ∧
  edit_mode (session_state a') = edit_mode (session_state a) ∧
  entered (world a') = entered (world a) ∧
  calls (world a') = calls (world a) ∧
  shown_since (world a) (world a') = [success "Saved."].
Proof.
  intros Hp a'. subst a'. rewrite save_eq, Hp. cbn [snd session_state world].
  split; [|split; [done|split; [done|split; [done|split; [done|split; [done|]]]]]].
  - eexists. split; [reflexivity|]. simpl.
    split; [apply new_milestones_length|]. split; [|done].
    intros i m Hm. by rewrite new_milestones_lookup, Hm.
  - by apply shown_since_app.
Qed.

Lemma new_milestones_untouched (text_input : TextInput) (ms : list Milestone) (j : nat) :
  (∀ label value key, text_input label value key = value) ->
  new_milestones text_input j ms = ms.
Proof.
  intros Hid. revert j. induction ms as [|[t d ts] ms IH]; intros j; [done|].
  simpl. by rewrite !Hid, IH.
Qed.

(** X14: saving a form nobody touched changes no document.  When every
    widget gives back the value it was filled with, the store after Save
    changes equals the store before it. *)
Theorem save_untouched_keeps_store (text_input : TextInput) (a : App) :
  (∀ label value key, text_input label value key = value) ->
  session_state (save text_input a).2 = session_state a.
Proof.
  intros Hid. rewrite save_eq. cbn [snd].
  destruct (plan (session_state a)) as [p|] eqn:Hp; [|done].
  cbn [session_state]. rewrite (new_milestones_untouched _ _ _ Hid).
  destruct (session_state a) as [r pl x em]. simpl in Hp. subst pl.
  by destruct p.
Qed.

End Visits.

Lemma assets_imply_plan_witness :
  is_Some (plan (session_state
                   (visit svc_ok repr_quoted dump_titles
                      [ (Btn_run_all, form_podcast); (Btn_save typed_new_title, form_podcast) ]
                      {| session_state := session_buckets; world := world_fresh |}).2)).
Proof.
  apply (assets_imply_plan svc_ok repr_quoted dump_titles
           [ (Btn_run_all, form_podcast); (Btn_save typed_new_title, form_podcast) ]
           world_fresh).
  vm_compute. by eexists.
Defined.

Lemma save_changes_titles_and_dues_only_witness :
  assets (session_state (save typed_new_title app_used).2) = Some assets_doc ∧
  shown_since world_fresh (world (save typed_new_title app_used).2) = [success "Saved."].
Proof.
  destruct (save_changes_titles_and_dues_only typed_new_title app_used old_plan_doc)
    as (_ & _ & Hassets & _ & _ & _ & Hshown); [reflexivity|].
  split; [exact Hassets|exact Hshown].
Defined.

Lemma save_untouched_keeps_store_witness :
  session_state (save typed_nothing app_used).2 = session_full.
Proof. apply (save_untouched_keeps_store typed_nothing app_used). reflexivity. Defined.

(** ** Deliver *)

(** *** Matching by derivatives *)

Lemma fullmatch_Nothing (s : list N) : fullmatch Nothing s = false.
Proof. by induction s. Qed.

Lemma fullmatch_Empty (s : list N) : fullmatch Empty s = true ↔ s = [].
Proof. destruct s as [|c s]; simpl; [done|]. by rewrite fullmatch_Nothing. Qed.

Lemma fullmatch_Alt (p q : Pattern) (s : list N) :
  fullmatch (Alt p q) s = fullmatch p s || fullmatch q s.
Proof. revert p q. induction s as [|c s IH]; intros p q; simpl; [done|apply IH]. Qed.

Lemma fullmatch_Seq (p q : Pattern) (s : list N) :
  fullmatch (Seq p q) s = true
  ↔ ∃ s1 s2, s = s1 ++ s2 ∧ fullmatch p s1 = true ∧ fullmatch q s2 = true.
Proof.
  revert p q. induction s as [|c s IH]; intros p q; simpl.
  - rewrite andb_true_iff. split.
    + intros [Hp Hq]. by exists [], [].
    + intros (s1 & s2 & Hs & Hp & Hq). symmetry in Hs.
      apply app_eq_nil in Hs as [-> ->]. done.
  - destruct (nullable p) eqn:Hnull.
    + rewrite fullmatch_Alt, orb_true_iff, IH. split.
      * intros [(s1 & s2 & -> & Hp & Hq)|Hq].
        -- by exists (c :: s1), s2.
        -- by exists [], (c :: s).
      * intros (s1 & s2 & Hs & Hp & Hq). destruct s1 as [|c' s1].
        -- right. simpl in Hs. by subst s2.
        -- left. injection Hs as <- ->. by exists s1, s2.
    + rewrite IH. split.
      * intros (s1 & s2 & -> & Hp & Hq). by exists (c :: s1), s2.
      * intros (s1 & s2 & Hs & Hp & Hq). destruct s1 as [|c' s1].
        -- simpl in Hp. congruence.
        -- injection Hs as <- ->. by exists s1, s2.
Qed.

Lemma fullmatch_Lit (c : N) (s : list N) : fullmatch (Lit c) s = true ↔ s = [c].
Proof.
  destruct s as [|c' s]; simpl; [done|].
  destruct (decide (c' = c)) as [->|Hc].
  - rewrite fullmatch_Empty. split; [by intros ->|by intros [= ->]].
  - rewrite fullmatch_Nothing. split; [done|]. by intros [= -> _].
Qed.

Lemma fullmatch_NoneOf (excluded : N -> bool) (s : list N) :
  fullmatch (NoneOf excluded) s = true ↔ ∃ c, s = [c] ∧ excluded c = false.
Proof.
  destruct s as [|c s]; simpl.
  - split; [done|]. by intros (c & [=] & _).
  - destruct (excluded c) eqn:Hc.
    + rewrite fullmatch_Nothing. split; [done|]. intros (c' & [= -> _] & Hc'). congruence.
    + rewrite fullmatch_Empty. split; [intros ->; by exists c|]. by intros (c' & [= _ ->] & _).
Qed.

Lemma fullmatch_Star_NoneOf (excluded : N -> bool) (s : list N) :
  fullmatch (Star (NoneOf excluded)) s = true ↔ Forall (fun c => excluded c = false) s.
Proof.
  induction s as [|c s IH]; simpl; [by split|].
  rewrite Forall_cons, <- IH, fullmatch_Seq. destruct (excluded c) eqn:Hc.
  - split; [|by intros [? _]].
    intros (s1 & s2 & _ & H & _). by rewrite fullmatch_Nothing in H.
  - split.
    + intros (s1 & s2 & -> & H1 & H2). apply fullmatch_Empty in H1 as ->. done.
    + intros [_ H]. by exists [], s.
Qed.

Lemma fullmatch_OneOrMore_NoneOf (excluded : N -> bool) (s : list N) :
  fullmatch (OneOrMore (NoneOf excluded)) s = true
  ↔ s ≠ [] ∧ Forall (fun c => excluded c = false) s.
Proof.
  unfold OneOrMore. rewrite fullmatch_Seq. split.
  - intros (s1 & s2 & -> & H1 & H2).
    apply fullmatch_NoneOf in H1 as (c & -> & Hc). apply fullmatch_Star_NoneOf in H2.
    split; [done|]. by apply Forall_cons.
  - intros [Hne H]. destruct s as [|c s]; [done|]. apply Forall_cons in H as [Hc H].
    exists [c], s. split; [done|]. split.
    + apply fullmatch_NoneOf. by exists c.
    + by apply fullmatch_Star_NoneOf.
Qed.

Lemma before_final_newline_Some (s y : list N) :
  before_final_newline s = Some y ↔ s = y ++ [10%N].
Proof.
  unfold before_final_newline. split.
  - destruct (reverse s) as [|c r] eqn:Hr; [done|].
    destruct (decide (c = 10%N)) as [->|]; [|done]. intros [= <-].
    by rewrite <- (reverse_involutive s), Hr, reverse_cons.
  - intros ->. rewrite reverse_snoc. rewrite decide_True by done.
    by rewrite reverse_involutive.
Qed.

Section DeliverTheory.

Variable isspace : N -> bool.

Lemma plain_at_or_space (s : list N) :
  fullmatch (OneOrMore (NoneOf (at_or_space isspace))) s = true ↔ plain isspace s.
Proof.
  rewrite fullmatch_OneOrMore_NoneOf. unfold plain, at_or_space.
  apply and_iff_compat_l, Forall_proper; [|done]. intros c.
  rewrite orb_false_iff, bool_decide_eq_false. done.
Qed.

Lemma fullmatch_email_pattern (s : list N) :
  fullmatch (email_pattern isspace) s = true
  ↔ ∃ l d t, plain isspace l ∧ plain isspace d ∧ plain isspace t ∧
             s = l ++ ord "@" :: d ++ ord "." :: t.
Proof.
  unfold email_pattern. rewrite fullmatch_Seq. split.
  - intros (l & s1 & -> & Hl & H1). apply plain_at_or_space in Hl.
    apply fullmatch_Seq in H1 as (a & s2 & -> & Ha & H2). apply fullmatch_Lit in Ha as ->.
    apply fullmatch_Seq in H2 as (d & s3 & -> & Hd & H3). apply plain_at_or_space in Hd.
    apply fullmatch_Seq in H3 as (dot & t & -> & Hdot & Ht). apply fullmatch_Lit in Hdot as ->.
    apply plain_at_or_space in Ht. by exists l, d, t.
  - intros (l & d & t & Hl & Hd & Ht & ->).
    exists l, (ord "@" :: d ++ ord "." :: t). split; [done|].
    split; [by apply plain_at_or_space|].
    apply fullmatch_Seq. exists [ord "@"], (d ++ ord "." :: t). split; [done|].
    split; [by apply fullmatch_Lit|].
    apply fullmatch_Seq. exists d, (ord "." :: t). split; [done|].
    split; [by apply plain_at_or_space|].
    apply fullmatch_Seq. exists [ord "."], t. split; [done|].
    split; [by apply fullmatch_Lit|by apply plain_at_or_space].
Qed.

(** X15: what [valid_email] accepts.  An address is accepted exactly when
    its code points read local part, [@], domain part, a dot, last part,
    each of the three parts non-empty and free of [@] and of whitespace
    (the parts may hold further dots), or when they are such an address
    followed by one final newline. *)
Theorem valid_email_shape (x : string) :
  valid_email isspace x = true
  ↔ ∃ s l d t, codepoints x = Some s ∧
               plain isspace l ∧ plain isspace d ∧ plain isspace t ∧
               (s = l ++ ord "@" :: d ++ ord "." :: t ∨
                s = (l ++ ord "@" :: d ++ ord "." :: t) ++ [ord "010"]).
Proof.
  unfold valid_email, re_match_to_end.
  assert (Hor : py_or (Some x) "" = x) by (by destruct x).
  rewrite Hor. destruct (codepoints x) as [s|]; [|split; [done|by intros (? & ? & ? & ? & [=] & _)]].
  rewrite orb_true_iff, fullmatch_email_pattern. split.
  - intros [(l & d & t & Hl & Hd & Ht & Hx)|H].
    + exists s, l, d, t. split; [done|]. split; [done|]. split; [done|].
      split; [done|]. by left.
    + destruct (before_final_newline _) as [y|] eqn:Hy; [|done].
      apply before_final_newline_Some in Hy.
      apply fullmatch_email_pattern in H as (l & d & t & Hl & Hd & Ht & ->).
      exists s, l, d, t. split; [done|]. split; [done|]. split; [done|].
      split; [done|]. by right.
  - intros (s' & l & d & t & [= <-] & Hl & Hd & Ht & [Hx|Hx]).
    + left. by exists l, d, t.
    + right. apply before_final_newline_Some in Hx. rewrite Hx.
      apply fullmatch_email_pattern. by exists l, d, t.
Qed.

Variable cfg : Settings.
Variable int : string -> Outcome Z.
Variable headers_refused : EmailMessage -> option Exn.
Variable server : Connection -> Outcome unit.
Variable str : Exn -> string.

Lemma valid_email_filled (x : string) : valid_email isspace x = true -> x ≠ "".
Proof. by intros H ->. Qed.

Lemma str_bool_filled (s : string) : str_bool s = true -> s ≠ "".
Proof. by intros H ->. Qed.

Lemma int_bool_nonzero (n : Z) : int_bool n = true -> n ≠ 0.
Proof. by intros H ->. Qed.

(** What one call of [smtp_send] does: it returns without a session unless
    all four settings are there, and with one session otherwise. *)
Lemma smtp_send_cases (subject body sender recipient : string) (desk : Desk) :
  let out := smtp_send cfg int headers_refused server str subject body sender recipient
               desk in
  (out.2 = desk ∧ ∀ msg, out.1 ≠ Ok (true, msg)) ∨
  (∃ c ok msg,
     out = (Ok (ok, msg), {| attempts := attempts desk ++ [c]; notices := notices desk |}) ∧
     (ok = true ↔ server c = Ok ()) ∧
     conn_host c ≠ "" ∧ conn_port c ≠ 0 ∧ conn_user c ≠ "" ∧ conn_pw c ≠ "" ∧
     sent c = {| Subject := subject; From := py_or (Some sender) (conn_user c);
                 To := recipient; content := body |}).
Proof.
  unfold smtp_send, outcome, new_message, connect_and_send, try_except, modify.
  unfold mbind, M_bind, mret, M_ret. cbv beta.
  destruct (int _) as [port|e]; [|by left].
  simpl forallb. unfold id.
  destruct (str_bool (getenv cfg "SMTP_HOST" _)) eqn:Hhost; [|by left].
  destruct (int_bool port) eqn:Hport; [|by left].
  destruct (str_bool (getenv cfg "SMTP_USER" _)) eqn:Huser; [|by left].
  destruct (str_bool (getenv cfg "SMTP_PASS" _)) eqn:Hpw; [|by left].
  cbn [andb negb]. destruct (headers_refused _) as [e|]; [by left|].
  right. eexists. destruct (server _) as [[]|e] eqn:Hserver.
  - exists true. eexists. split; [reflexivity|]. split; [by rewrite Hserver|].
    cbn [conn_host conn_port conn_user conn_pw sent].
    by repeat split; [apply str_bool_filled|apply int_bool_nonzero|
                      apply str_bool_filled|apply str_bool_filled].
  - exists false. eexists. split; [reflexivity|]. split; [by rewrite Hserver|].
    cbn [conn_host conn_port conn_user conn_pw sent].
    by repeat split; [apply str_bool_filled|apply int_bool_nonzero|
                      apply str_bool_filled|apply str_bool_filled].
Qed.


(** X16: what reaches the mail server.  One submit opens at most one
    session with the mail server, and opens it only when the box is ticked,
    the recipient and the sender address both pass [valid_email], and host,
    port, user and password are all set; the message of that session has
    the subject, body, recipient and sender of the form. *)
Theorem submit_sends_only_when_guarded (d : DeliverForm) (desk : Desk) :
  let desk' := (submit isspace cfg int headers_refused server str d desk).2 in
  attempts desk' = attempts desk ∨
  ∃ c, attempts desk' = attempts desk ++ [c] ∧
       confirm d = true ∧
       valid_email isspace (recipient_email d) = true ∧
       valid_email isspace (sender_email d) = true ∧
       conn_host c ≠ "" ∧ conn_port c ≠ 0 ∧ conn_user c ≠ "" ∧ conn_pw c ≠ "" ∧
       sent c = {| Subject := email_subject d; From := sender_email d;
                   To := recipient_email d; content := email_body d |}.
Proof.
  unfold submit, notice, modify.
  destruct (confirm d); cbn [negb]; [|by left].
  destruct (valid_email isspace (recipient_email d)) eqn:Hto; cbn [negb]; [|by left].
  destruct (valid_email isspace (sender_email d)) eqn:Hfrom; cbn [negb]; [|by left].
  unfold mbind, M_bind.
  destruct (smtp_send_cases (email_subject d) (email_body d) (sender_email d)
              (recipient_email d) desk)
    as [[Hdesk _]|(c & ok & msg & Hout & _ & Hhost & Hport & Huser & Hpw & Hsent)].
  - left. destruct (smtp_send _ _ _ _ _ _ _ _ _ _) as [[res|e] desk1];
      simpl in Hdesk; by subst desk1.
  - right. exists c. rewrite Hout. cbn [snd fst attempts].
    repeat (split; [done|]). rewrite Hsent. f_equal.
    apply valid_email_filled in Hfrom. by destruct (sender_email d).
Qed.

(** X17: what a submit tells the user.  A submit that returns shows exactly
    one message, and that message is a success only if a session with the
    mail server was opened and the server accepted the message; a refusal
    of the server is shown as an error, it is not raised.  A submit that
    raises (an unreadable port setting, a header the message refuses) has
    opened no session and shown nothing. *)
Theorem submit_reports (d : DeliverForm) (desk : Desk) :
  let out := submit isspace cfg int headers_refused server str d desk in
  match out.1 with
  | Ok _ =>
      ∃ u, notices out.2 = notices desk ++ [u] ∧
           ∀ msg, u = success msg ->
             ∃ c, attempts out.2 = attempts desk ++ [c] ∧ server c = Ok ()
  | Raise _ => out.2 = desk
  end.
Proof.
  unfold submit, notice, modify.
  destruct (confirm d); cbn [negb]; [|by eexists].
  destruct (valid_email isspace (recipient_email d)); cbn [negb]; [|by eexists].
  destruct (valid_email isspace (sender_email d)); cbn [negb]; [|by eexists].
  unfold mbind, M_bind.
  destruct (smtp_send_cases (email_subject d) (email_body d) (sender_email d)
              (recipient_email d) desk)
    as [[Hdesk Hno]|(c & ok & msg & Hout & Hok & _)].
  - destruct (smtp_send _ _ _ _ _ _ _ _ _ _) as [[[ok msg]|e] desk1];
      simpl in Hdesk; subst desk1; [|done].
    cbn [fst snd notices]. eexists. split; [done|].
    destruct ok; [by destruct (Hno msg)|done].
  - rewrite Hout. cbn [fst snd notices attempts]. eexists. split; [done|].
    intros msg'. destruct ok; [|done]. intros _. exists c. split; [done|].
    by apply Hok.
Qed.

End DeliverTheory.

Lemma valid_email_shape_witness : valid_email unicode_space "ada@example.org" = true.
Proof.
  apply (valid_email_shape unicode_space "ada@example.org").
  exists (ord <$> String.list_ascii_of_string "ada@example.org"),
    (ord <$> String.list_ascii_of_string "ada"),
    (ord <$> String.list_ascii_of_string "example"),
    (ord <$> String.list_ascii_of_string "org").
  split; [reflexivity|].
  repeat split; try done; repeat constructor; done.
Defined.

(** The address below holds a no-break space, U+00A0, between "exa" and
    "mple", and the one after it an ideographic space, U+3000. *)
Example valid_email_unicode_space :
  valid_email unicode_space "ada@exa mple.org" = false ∧
  valid_email unicode_space "ada　@example.org" = false ∧
  valid_email unicode_space "adé@exämple.org" = true.
Proof. by vm_compute. Qed.

Lemma submit_reports_witness :
  ∃ c, attempts (submit unicode_space settings_ok int_465 headers_fine server_up str_text
                   deliver_form desk_empty).2 = [c] ∧
       server_up c = Ok ().
Proof.
  pose proof (submit_reports unicode_space settings_ok int_465 headers_fine server_up
                str_text deliver_form desk_empty) as H.
  vm_compute in H. destruct H as (u & Hu & Hsent). injection Hu as <-.
  destruct (Hsent _ eq_refl) as (c & Hc & Hup).
  exists c. split; [exact Hc|exact Hup].
Defined.
